(** * AutoIntelli: the application factory [autointelli/__init__.py]

    A shallow embedding of [create_app] and of the user loader it registers,
    with the properties of the bootstrap stated over it.

    Modelling conventions.
    - [os.environ] is a finite map from variable names to strings;
      [load_dotenv()] adds the variables of the [.env] file that are not
      set yet, and every later read sees the result.
    - [app.config] is a finite map from keys to Python values.
    - Effects (logging, printing, [os.environ], the module global [s], the
      shared [login_manager], extension initialisation) are threaded
      through a state-and-exception monad [M]; the state survives a raised
      exception, so what happened before a raise can be observed.
    - What lies outside the file is a [World]: the [.env] file, Flask's
      default configuration, what [int] makes of a piece of text, whether
      the Notion [Client] constructor, an extension's [init_app] or
      [db.session.get] raises, and the keys an extension's [init_app] adds
      to [app.config]. The blueprint imports and [register_blueprint] are
      recorded as they happen.
    - [pyexc] stands for instances of Python's [Exception]; a constructor
      of [exc_class] stands for the class and its subclasses.
    - [lower] folds the ASCII letters A-Z, which is all that a comparison
      with ["true"] can see. *)

From Stdlib Require Import ZArith Ascii String.
From stdpp Require Import base option list strings gmap pretty.

Open Scope Z_scope.

(** ** Python values and the builtins the factory uses *)

Module Py.

Inductive exc_class : Type :=
| ValueError
| TypeError
| KeyError
| AttributeError
| EnvironmentError
| OtherException (name : string).

Record pyexc : Type := Exc { exc_cls : exc_class; exc_msg : string }.

Definition is_ValueError (e : pyexc) : bool :=
  match exc_cls e with ValueError => true | _ => false end.

Definition is_TypeError (e : pyexc) : bool :=
  match exc_cls e with TypeError => true | _ => false end.

(** [except Exception]: every modelled exception is an [Exception]. *)
Definition is_Exception (e : pyexc) : bool := true.

(** [VObject] is any other object that is neither a number nor text and
    has no conversion to an integer (a dict, a list, a timedelta), known
    by the name of its type, its [str] and its truth value. *)
Inductive pyval : Type :=
| VNone
| VBool (b : bool)
| VInt (n : Z)
| VStr (s : string)
| VObject (type_name text : string) (truth : bool).

Definition pyval_eqb (a b : pyval) : bool :=
  match a, b with
  | VNone, VNone => true
  | VBool x, VBool y => Bool.eqb x y
  | VInt x, VInt y => Z.eqb x y
  | VBool x, VInt y | VInt y, VBool x => Z.eqb (if x then 1 else 0) y
  | VStr x, VStr y => String.eqb x y
  | VObject n x b, VObject n' x' b' =>
      String.eqb n n' && String.eqb x x' && Bool.eqb b b'
  | _, _ => false
  end.

(** Truth value of an object, as [if x] and [not x] test it. *)
Definition truthy (v : pyval) : bool :=
  match v with
  | VNone => false
  | VBool b => b
  | VInt n => negb (Z.eqb n 0)
  | VStr s => negb (String.eqb s "")
  | VObject _ _ b => b
  end.

(** [str(v)], as an f-string interpolates it. *)
Definition py_str (v : pyval) : string :=
  match v with
  | VNone => "None"
  | VBool true => "True"
  | VBool false => "False"
  | VInt n => pretty n
  | VStr s => s
  | VObject _ x _ => x
  end.

(** [str.lower] on ASCII letters; other bytes are left as they are. *)
Definition lower_ascii (c : ascii) : ascii :=
  let n := N_of_ascii c in
  if (65 <=? n)%N && (n <=? 90)%N then ascii_of_N (n + 32) else c.

Fixpoint lower (s : string) : string :=
  match s with
  | EmptyString => EmptyString
  | String c r => String (lower_ascii c) (lower r)
  end.

(** Decimal literals in ASCII, as [int] reads them in base 10: white
    space around (tab, line feed, vertical tab, form feed, carriage
    return, space) is stripped, one sign is allowed, then digits, with
    single underscores between digits. This is the reading of the sample
    worlds below; Python also refuses literals of more than 4300 digits
    and reads digits and white space outside ASCII, which no sample has. *)
Definition is_space (c : ascii) : bool :=
  let n := N_of_ascii c in
  ((9 <=? n)%N && (n <=? 13)%N) || (n =? 32)%N.

Definition digit_of (c : ascii) : option Z :=
  let n := N_of_ascii c in
  if (48 <=? n)%N && (n <=? 57)%N then Some (Z.of_N n - 48) else None.

Fixpoint lstrip (s : string) : string :=
  match s with
  | String c r => if is_space c then lstrip r else s
  | EmptyString => EmptyString
  end.

Definition strip (s : string) : string :=
  String.rev (lstrip (String.rev (lstrip s))).

Fixpoint digits_from (after_underscore : bool) (acc : Z) (s : string) : option Z :=
  match s with
  | EmptyString => if after_underscore then None else Some acc
  | String c r =>
      match digit_of c with
      | Some d => digits_from false (10 * acc + d) r
      | None =>
          if Ascii.eqb c "_" && negb after_underscore
          then digits_from true acc r
          else None
      end
  end.

Definition unsigned_of_str (s : string) : option Z :=
  match s with
  | String c r =>
      match digit_of c with
      | Some d => digits_from false d r
      | None => None
      end
  | EmptyString => None
  end.

Definition decimal_of_ascii (s : string) : option Z :=
  match strip s with
  | String "-" r => Z.opp <$> unsigned_of_str r
  | String "+" r => unsigned_of_str r
  | t => unsigned_of_str t
  end.

(** Text made of ASCII characters none of which is a digit. Whatever else
    [int] accepts, it needs a digit, so it rejects such text. *)
Fixpoint digitless_ascii (s : string) : bool :=
  match s with
  | EmptyString => true
  | String c r =>
      let n := N_of_ascii c in
      (n <? 128)%N && negb ((48 <=? n)%N && (n <=? 57)%N) && digitless_ascii r
  end.

End Py.
Export Py.

(** ** The objects the factory builds and the world around it *)

(** [itsdangerous.URLSafeTimedSerializer(secret_key)]. *)
Record Serializer : Type := URLSafeTimedSerializer { secret_key : pyval }.

(** [notion_client.Client(auth=..., timeout_ms=...)]. *)
Record NotionClient : Type := Client { auth : pyval; timeout_ms : Z }.

(** A row of the [User] model of [models.py], known here by its primary key. *)
Record User : Type := mkUser { user_pk : Z }.

Inductive extension : Type := ext_db | ext_migrate | ext_login_manager | ext_mail.

(** The blueprint objects imported at the end of the factory. *)
Inductive blueprint : Type :=
| main_bp | auth_bp | solicitudes_bp | ajustes_bp
| proyectos_bp | accesorios_bp | almacen_bp | compras_bp.

Global Instance extension_eq_dec : EqDecision extension.
Proof. solve_decision. Defined.
Global Instance blueprint_eq_dec : EqDecision blueprint.
Proof. solve_decision. Defined.

Inductive callback : Type := cb_load_user.

(** [flask_login.LoginManager]: the attributes the factory assigns. *)
Record LoginManager : Type := mkLoginManager {
  login_view : option string;
  login_message : string;
  login_message_category : string;
  user_callback : option callback
}.

Inductive level : Type := DEBUG | WARNING | ERROR.

(** What the process does that is observable from outside the factory. *)
Inductive event : Type :=
| EvLog (lvl : level) (msg : string) (exc_info : option pyexc)
| EvPrint (msg : string)
| EvInitApp (e : extension).   (* [ext.init_app(app)] is called *)

Definition is_init (ev : event) : bool :=
  match ev with EvInitApp _ => true | _ => false end.

Definition is_warning (ev : event) : bool :=
  match ev with EvLog WARNING _ _ => true | _ => false end.

(** The [Flask] application object: constructor arguments, [config], and
    the attributes the factory attaches. *)
Record Flask : Type := mkFlask {
  import_name : string;
  instance_relative_config : bool;
  template_folder : string;
  static_folder : string;
  config : gmap string pyval;
  notion_client : option NotionClient;
  url_serializer : option Serializer;
  extensions : list extension;
  blueprints : list (blueprint * option string)
}.

(** Everything outside the file that the factory's result depends on. *)
Record World : Type := mkWorld {
  (** the key/value pairs of the [.env] file, empty when there is none *)
  dotenv_file : gmap string string;
  (** [os.path.abspath] of the directory one level above this package *)
  package_parent : string;
  (** [Flask.default_config] *)
  flask_default_config : gmap string pyval;
  (** [int(text)] for text that has a digit or a non-ASCII character:
      the integer, or nothing where [int] raises its [ValueError] *)
  int_literal : string -> option Z;
  (** the message of the [ValueError] that [int(text)] raises *)
  int_error_text : string -> string;
  (** the exception, if any, that [Client(auth=..., timeout_ms=...)] raises *)
  Client_raises : pyval -> Z -> option pyexc;
  (** the exception, if any, that an extension's [init_app] raises on an
      application with the given [config] *)
  init_app_raises : extension -> gmap string pyval -> option pyexc;
  (** the keys an extension's [init_app] gives a default value with
      [app.config.setdefault] *)
  init_app_defaults : extension -> gmap string pyval;
  (** [db.session.get(User, pk)]: an exception, no row, or the row *)
  session_get : Z -> pyexc + option User
}.

(** [int(text)]: nothing stands for the [ValueError]. *)
Definition int_of_str (W : World) (t : string) : option Z :=
  if digitless_ascii t then None else int_literal W t.

(** [int(v)]: a [ValueError] for text that is no integer literal, a
    [TypeError] for [None] and for objects without a conversion. *)
Definition int (W : World) (v : pyval) : pyexc + Z :=
  match v with
  | VInt n => inr n
  | VBool b => inr (if b then 1 else 0)
  | VStr t =>
      match int_of_str W t with
      | Some n => inr n
      | None => inl (Exc ValueError (int_error_text W t))
      end
  | VNone =>
      inl (Exc TypeError
             "int() argument must be a string, a bytes-like object or a real number, not 'NoneType'")
  | VObject n _ _ =>
      inl (Exc TypeError
             ("int() argument must be a string, a bytes-like object or a real number, not '"
              +:+ n +:+ "'"))
  end.

(** Module-level and process-level state. *)
Record state : Type := mkState {
  environ : gmap string string;    (* os.environ *)
  s : Serializer;                  (* the module global [s] *)
  login_manager : LoginManager;    (* the module global [login_manager] *)
  trace : list event               (* oldest first *)
}.

(** The state right after the module is imported (lines 19-31). *)
Definition module_loaded (env : gmap string string) : state :=
  {| environ := env;
     s := URLSafeTimedSerializer (VStr "default_secret_key");
     login_manager :=
       {| login_view := None;
          login_message := "Please log in to access this page.";
          login_message_category := "message";
          user_callback := None |};
     trace := [] |}.

(** ** The monad: state that survives exceptions *)

Definition M (A : Type) : Type := state -> state * (pyexc + A).

Global Instance M_ret : MRet M := fun A (a : A) st => (st, inr a).

Global Instance M_bind : MBind M := fun A B (k : A -> M B) (m : M A) st =>
  match m st with
  | (st', inr a) => k a st'
  | (st', inl e) => (st', inl e)
  end.

Definition raise {A} (e : pyexc) : M A := fun st => (st, inl e).

Definition lift {A} (r : pyexc + A) : M A := fun st => (st, r).

(** [try: body  except <classes> as e: handler e]. *)
Definition try_except {A} (body : M A) (catches : pyexc -> bool)
    (handler : pyexc -> M A) : M A := fun st =>
  match body st with
  | (st', inl e) => if catches e then handler e st' else (st', inl e)
  | r => r
  end.

Definition gets {A} (f : state -> A) : M A := fun st => (st, inr (f st)).

Definition emit (ev : event) : M unit := fun st =>
  ({| environ := environ st; s := s st; login_manager := login_manager st;
      trace := trace st ++ [ev] |}, inr tt).

Definition set_environ (env : gmap string string) : M unit := fun st =>
  ({| environ := env; s := s st; login_manager := login_manager st;
      trace := trace st |}, inr tt).

Definition set_s (x : Serializer) : M unit := fun st =>
  ({| environ := environ st; s := x; login_manager := login_manager st;
      trace := trace st |}, inr tt).

Definition set_login_manager (f : LoginManager -> LoginManager) : M unit := fun st =>
  ({| environ := environ st; s := s st; login_manager := f (login_manager st);
      trace := trace st |}, inr tt).

(** ** Library calls *)

Definition logger_debug (msg : string) : M unit := emit (EvLog DEBUG msg None).
Definition logger_warning (msg : string) : M unit := emit (EvLog WARNING msg None).
Definition logger_error (msg : string) (exc_info : option pyexc) : M unit :=
  emit (EvLog ERROR msg exc_info).
Definition print (msg : string) : M unit := emit (EvPrint msg).

(** [load_dotenv()]: variables of the [.env] file are added to
    [os.environ]; a variable that is already set keeps its value. *)
Definition load_dotenv (W : World) : M unit :=
  env ← gets environ;
  set_environ (env ∪ dotenv_file W).

(** [env.get(k)] and [env.get(k, d)] on a mapping of strings. *)
Definition getenv (env : gmap string string) (k : string) : pyval :=
  from_option VStr VNone (env !! k).

Definition getenv_or (env : gmap string string) (k : string) (d : pyval) : pyval :=
  from_option VStr d (env !! k).

(** [os.environ.get(k)] and [os.environ.get(k, d)]. *)
Definition os_environ_get (k : string) : M pyval :=
  env ← gets environ;
  mret (getenv env k).

Definition os_environ_get_or (k : string) (d : pyval) : M pyval :=
  env ← gets environ;
  mret (getenv_or env k d).

(** [os.path.join(a, b)] for a relative [b]. *)
Definition path_join (a b : string) : string :=
  match String.rev a with
  | EmptyString => b
  | String "/" _ => a +:+ b
  | _ => a +:+ "/" +:+ b
  end.

(** [v.lower()]. *)
Definition str_lower (v : pyval) : M pyval :=
  match v with
  | VStr t => mret (VStr (lower t))
  | VNone => raise (Exc AttributeError "'NoneType' object has no attribute 'lower'")
  | VBool _ => raise (Exc AttributeError "'bool' object has no attribute 'lower'")
  | VInt _ => raise (Exc AttributeError "'int' object has no attribute 'lower'")
  | VObject n _ _ =>
      raise (Exc AttributeError ("'" +:+ n +:+ "' object has no attribute 'lower'"))
  end.

(** [Flask(__name__, instance_relative_config=True, template_folder=...,
    static_folder=...)]. *)
Definition Flask_new (W : World) (name : string) (relative : bool)
    (templates static : string) : Flask :=
  {| import_name := name; instance_relative_config := relative;
     template_folder := templates; static_folder := static;
     config := flask_default_config W;
     notion_client := None; url_serializer := None;
     extensions := []; blueprints := [] |}.

(** [app.config[k] = v]. *)
Definition config_set (k : string) (v : pyval) (app : Flask) : Flask :=
  {| import_name := import_name app;
     instance_relative_config := instance_relative_config app;
     template_folder := template_folder app; static_folder := static_folder app;
     config := <[k := v]> (config app);
     notion_client := notion_client app; url_serializer := url_serializer app;
     extensions := extensions app; blueprints := blueprints app |}.

(** [app.config.get(k)] and [app.config.get(k, d)]. *)
Definition config_get (app : Flask) (k : string) : pyval :=
  default VNone (config app !! k).

Definition config_get_or (app : Flask) (k : string) (d : pyval) : pyval :=
  default d (config app !! k).

(** [app.config[k]]. *)
Definition config_item (app : Flask) (k : string) : M pyval :=
  match config app !! k with
  | Some v => mret v
  | None => raise (Exc KeyError ("'" +:+ k +:+ "'"))
  end.

(** [app.notion_client = c]. *)
Definition set_notion_client (c : option NotionClient) (app : Flask) : Flask :=
  {| import_name := import_name app;
     instance_relative_config := instance_relative_config app;
     template_folder := template_folder app; static_folder := static_folder app;
     config := config app;
     notion_client := c; url_serializer := url_serializer app;
     extensions := extensions app; blueprints := blueprints app |}.

(** [app.url_serializer = x]. *)
Definition set_url_serializer (x : Serializer) (app : Flask) : Flask :=
  {| import_name := import_name app;
     instance_relative_config := instance_relative_config app;
     template_folder := template_folder app; static_folder := static_folder app;
     config := config app;
     notion_client := notion_client app; url_serializer := Some x;
     extensions := extensions app; blueprints := blueprints app |}.

(** [ext.init_app(app)]. The call is unguarded in the source: an
    exception of the extension leaves the factory. *)
(** When it does not raise, the extension binds itself to the
    application and gives its configuration keys their defaults, leaving
    every key that is already there as it is. *)
Definition bind_extension (W : World) (e : extension) (app : Flask) : Flask :=
  {| import_name := import_name app;
     instance_relative_config := instance_relative_config app;
     template_folder := template_folder app; static_folder := static_folder app;
     config := config app ∪ init_app_defaults W e;
     notion_client := notion_client app; url_serializer := url_serializer app;
     extensions := extensions app ++ [e]; blueprints := blueprints app |}.

Definition init_app (W : World) (e : extension) (app : Flask) : M Flask :=
  emit (EvInitApp e);;
  match init_app_raises W e (config app) with
  | Some x => raise x
  | None => mret (bind_extension W e app)
  end.

(** [app.register_blueprint(bp, url_prefix=p)]. *)
Definition register_blueprint (bp : blueprint) (url_prefix : option string)
    (app : Flask) : Flask :=
  {| import_name := import_name app;
     instance_relative_config := instance_relative_config app;
     template_folder := template_folder app; static_folder := static_folder app;
     config := config app;
     notion_client := notion_client app; url_serializer := url_serializer app;
     extensions := extensions app;
     blueprints := blueprints app ++ [(bp, url_prefix)] |}.

(** [Client(auth=key, timeout_ms=t)]. *)
Definition Client_new (W : World) (key : pyval) (t : Z) : M NotionClient :=
  match Client_raises W key t with
  | Some e => raise e
  | None => mret (Client key t)
  end.

(** ** [create_app], section by section *)

(** Lines 51-71: secret key, database URL and the fatal check. *)
Definition configure_application (app : Flask) : M Flask :=
  v ← os_environ_get_or "SECRET_KEY"
        (VStr "una_clave_secreta_por_defecto_muy_segura_cambiar_en_produccion");
  let app := config_set "SECRET_KEY" v app in
  database_url ← os_environ_get "DATABASE_URL";
  let app := config_set "SQLALCHEMY_DATABASE_URI" database_url app in
  let app := config_set "SQLALCHEMY_TRACK_MODIFICATIONS" (VBool false) app in
  logger_debug ("SQLALCHEMY_DATABASE_URI configurada como: "
                +:+ py_str (config_get app "SQLALCHEMY_DATABASE_URI"));;
  (if negb (truthy database_url) then
     print "ERROR FATAL: DATABASE_URL no configurada. La aplicación no puede iniciar.";;
     raise (Exc EnvironmentError
              "La variable de entorno DATABASE_URL no está configurada. La aplicación no puede conectar a la base de datos.")
   else mret tt);;
  mret app.

(** Lines 78-82: the mail port, with its fallback. *)
Definition configure_mail_port (W : World) (app : Flask) : M Flask :=
  try_except
    (v ← os_environ_get_or "MAIL_PORT" (VInt 465);
     n ← lift (int W v);
     mret (config_set "MAIL_PORT" (VInt n) app))
    is_ValueError
    (fun _ =>
       let app := config_set "MAIL_PORT" (VInt 465) app in
       logger_warning "MAIL_PORT en .env no es un número válido. Usando puerto por defecto 465.";;
       mret app).

(** Lines 76-93: Flask-Mail. *)
Definition configure_mail (W : World) (app : Flask) : M Flask :=
  v ← os_environ_get_or "MAIL_SERVER" (VStr "smtp.gmail.com");
  let app := config_set "MAIL_SERVER" v app in
  app ← configure_mail_port W app;
  v ← os_environ_get_or "MAIL_USE_TLS" (VStr "False");
  l ← str_lower v;
  let app := config_set "MAIL_USE_TLS" (VBool (pyval_eqb l (VStr "true"))) app in
  v ← os_environ_get_or "MAIL_USE_SSL" (VStr "True");
  l ← str_lower v;
  let app := config_set "MAIL_USE_SSL" (VBool (pyval_eqb l (VStr "true"))) app in
  v ← os_environ_get "MAIL_USERNAME";
  let app := config_set "MAIL_USERNAME" v app in
  v ← os_environ_get "MAIL_PASSWORD";
  let app := config_set "MAIL_PASSWORD" v app in
  v ← os_environ_get_or "MAIL_DEFAULT_SENDER" (config_get app "MAIL_USERNAME");
  let app := config_set "MAIL_DEFAULT_SENDER" v app in
  (if negb (truthy (config_get app "MAIL_USERNAME"))
      || negb (truthy (config_get app "MAIL_PASSWORD"))
   then logger_warning "Configuración de correo incompleta (MAIL_USERNAME o MAIL_PASSWORD faltantes). La funcionalidad de correo no funcionará."
   else mret tt);;
  mret app.

(** Lines 108-120: the Notion client, kept on the application object. *)
Definition init_notion_client (W : World) (app : Flask) : M Flask :=
  let app := set_notion_client None app in
  if truthy (config_get app "NOTION_API_KEY") then
    logger_debug "NOTION_API_KEY encontrada en config, intentando inicializar Notion Client...";;
    try_except
      (key ← config_item app "NOTION_API_KEY";
       c ← Client_new W key 60000;
       let app := set_notion_client (Some c) app in
       logger_debug "Cliente de Notion inicializado.";;
       mret app)
      is_Exception
      (fun e =>
         logger_error ("ERROR al inicializar Notion Client: " +:+ exc_msg e) (Some e);;
         mret (set_notion_client None app))
  else
    logger_warning "NOTION_API_KEY NO encontrada en config. Cliente de Notion no inicializado. La integración con Notion no funcionará.";;
    mret app.

(** Lines 99-120: Notion. *)
Definition configure_notion (W : World) (app : Flask) : M Flask :=
  v ← os_environ_get "NOTION_API_KEY";
  let app := config_set "NOTION_API_KEY" v app in
  v ← os_environ_get "DATABASE_ID_PROYECTOS";
  let app := config_set "DATABASE_ID_PROYECTOS" v app in
  v ← os_environ_get "DATABASE_ID_PARTIDAS";
  let app := config_set "DATABASE_ID_PARTIDAS" v app in
  v ← os_environ_get "DATABASE_ID_PLANES";
  let app := config_set "DATABASE_ID_PLANES" v app in
  v ← os_environ_get "DATABASE_ID";
  let app := config_set "DATABASE_ID_MATERIALES_DB1" v app in
  v ← os_environ_get "DATABASE_ID_2";
  let app := config_set "DATABASE_ID_MATERIALES_DB2" v app in
  init_notion_client W app.

(** Lines 125-130: the extensions, [db] first. *)
Definition init_extensions (W : World) (app : Flask) : M Flask :=
  app ← init_app W ext_db app;
  app ← init_app W ext_migrate app;
  app ← init_app W ext_login_manager app;
  init_app W ext_mail app.

(** Lines 134-137: the serializer is rebuilt from the configured key. *)
Definition refresh_serializer (app : Flask) : M Flask :=
  let key := config_get_or app "SECRET_KEY" (VStr "default_fallback_secret_again") in
  set_s (URLSafeTimedSerializer key);;
  x ← gets s;
  mret (set_url_serializer x app).

(** Lines 141-147: Flask-Login's policy and the loader's registration. *)
Definition configure_login : M unit :=
  set_login_manager (fun lm =>
    {| login_view := Some "auth.login"; login_message := login_message lm;
       login_message_category := login_message_category lm;
       user_callback := user_callback lm |});;
  set_login_manager (fun lm =>
    {| login_view := login_view lm; login_message := login_message lm;
       login_message_category := "info";
       user_callback := user_callback lm |});;
  set_login_manager (fun lm =>
    {| login_view := login_view lm;
       login_message := "Por favor, inicia sesión para acceder a esta página.";
       login_message_category := login_message_category lm;
       user_callback := user_callback lm |});;
  set_login_manager (fun lm =>
    {| login_view := login_view lm; login_message := login_message lm;
       login_message_category := login_message_category lm;
       user_callback := Some cb_load_user |}).

(** Lines 147-159: the user loader. *)
Definition load_user (W : World) (user_id : pyval) : M (option User) :=
  try_except
    (pk ← lift (int W user_id);
     lift (session_get W pk))
    (fun e => is_ValueError e || is_TypeError e)
    (fun e =>
       logger_error ("Intento de cargar usuario con ID inválido '"
                     +:+ py_str user_id +:+ "': " +:+ exc_msg e) None;;
       mret None).

(** Lines 173-180: the blueprints and their URL prefixes. *)
Definition register_blueprints (app : Flask) : Flask :=
  let app := register_blueprint main_bp None app in
  let app := register_blueprint auth_bp (Some "/auth") app in
  let app := register_blueprint solicitudes_bp (Some "/solicitudes") app in
  let app := register_blueprint ajustes_bp (Some "/ajustes") app in
  let app := register_blueprint proyectos_bp (Some "/proyectos") app in
  let app := register_blueprint accesorios_bp (Some "/accesorios") app in
  let app := register_blueprint almacen_bp (Some "/almacen") app in
  let app := register_blueprint compras_bp (Some "/compras") app in
  app.

(** [create_app()], lines 34-185. *)
Definition create_app (W : World) : M Flask :=
  load_dotenv W;;
  let template_dir := path_join (package_parent W) "templates" in
  let static_dir := path_join (package_parent W) "static" in
  let app := Flask_new W "autointelli" true template_dir static_dir in
  app ← configure_application app;
  app ← configure_mail W app;
  app ← configure_notion W app;
  app ← init_extensions W app;
  app ← refresh_serializer app;
  configure_login;;
  let app := register_blueprints app in
  mret app.

(** The message of [int]'s [ValueError] for plain text. *)
Definition sample_int_error_text (t : string) : string :=
  "invalid literal for int() with base 10: '" +:+ t +:+ "'".

(** Extensions as Flask-SQLAlchemy and its companions behave: [db]
    refuses a database URI it cannot parse and sets its own defaults;
    the others accept every configuration and add no key. *)
Definition unparsable_url : pyexc :=
  Exc (OtherException "ArgumentError")
    "Could not parse SQLAlchemy URL from string 'not-a-url'".

Definition sample_init_app_raises (e : extension) (cfg : gmap string pyval)
    : option pyexc :=
  match e with
  | ext_db =>
      match cfg !! "SQLALCHEMY_DATABASE_URI" with
      | Some (VStr "not-a-url") => Some unparsable_url
      | _ => None
      end
  | _ => None
  end.

Definition sample_init_app_defaults (e : extension) : gmap string pyval :=
  match e with
  | ext_db =>
      {[ "SQLALCHEMY_ECHO" := VBool false;
         "SQLALCHEMY_RECORD_QUERIES" := VBool false;
         "SQLALCHEMY_TRACK_MODIFICATIONS" := VBool true;
         "SQLALCHEMY_DATABASE_URI" := VStr "sqlite:///:memory:";
         "SQLALCHEMY_BINDS" := VObject "dict" "{}" false;
         "SQLALCHEMY_ENGINE_OPTIONS" := VObject "dict" "{}" false ]}
  | _ => ∅
  end.

(** A world for running the factory on concrete inputs: no [.env] file,
    an empty default configuration, a client constructor that refuses the
    key ["bad"], and a user table with the single row 7. *)
Definition sample_world : World :=
  {| dotenv_file := ∅;
     package_parent := "/srv/sys_autointelli";
     flask_default_config := ∅;
     int_literal := decimal_of_ascii;
     int_error_text := sample_int_error_text;
     Client_raises := fun key _ =>
       if pyval_eqb key (VStr "bad")
       then Some (Exc (OtherException "APIResponseError") "unauthorized")
       else None;
     init_app_raises := sample_init_app_raises;
     init_app_defaults := sample_init_app_defaults;
     session_get := fun pk =>
       if Z.eqb pk 7 then inr (Some (mkUser 7)) else inr None |}.

(** A world whose database cannot be reached. *)
Definition database_unreachable : pyexc :=
  Exc (OtherException "OperationalError") "could not connect to server".

Definition offline_world : World :=
  {| dotenv_file := ∅;
     package_parent := "/srv/sys_autointelli";
     flask_default_config := ∅;
     int_literal := decimal_of_ascii;
     int_error_text := sample_int_error_text;
     Client_raises := fun _ _ => None;
     init_app_raises := sample_init_app_raises;
     init_app_defaults := sample_init_app_defaults;
     session_get := fun _ => inl database_unreachable |}.


Definition with_session (W : World) (f : Z -> pyexc + option User) : World :=
  {| dotenv_file := dotenv_file W;
     package_parent := package_parent W;
     flask_default_config := flask_default_config W;
     int_literal := int_literal W;
     int_error_text := int_error_text W;
     Client_raises := Client_raises W;
     init_app_raises := init_app_raises W;
     init_app_defaults := init_app_defaults W;
     session_get := f |}.

(** Environments for running the factory on concrete inputs. *)
Definition env_database : gmap string string :=
  {[ "DATABASE_URL" := "postgresql://localhost/autointelli" ]}.

Definition env_no_database : gmap string string :=
  {[ "MAIL_PORT" := "not-a-number" ]}.


Definition env_bad_port : gmap string string :=
  <["MAIL_PORT" := "not-a-number"]> env_database.

Definition env_bad_key : gmap string string :=
  <["NOTION_API_KEY" := "bad"]> env_database.

Definition env_flags : gmap string string :=
  <["MAIL_USE_SSL" := "yes"]> (<["MAIL_USE_TLS" := "TRUE"]> env_database).

Definition env_unparsable_url : gmap string string :=
  <["NOTION_API_KEY" := "bad"]>
    (<["MAIL_PORT" := "not-a-number"]> {[ "DATABASE_URL" := "not-a-url" ]}).

(** The state after some more events. *)
Definition logged (evs : list event) (st : state) : state :=
  {| environ := environ st; s := s st; login_manager := login_manager st;
     trace := trace st ++ evs |}.

(** [os.environ] as the factory reads it, that is, after [load_dotenv()]. *)
Definition os_environ (W : World) (st : state) : gmap string string :=
  environ st ∪ dotenv_file W.

(** ** What each section of the factory computes *)

Definition default_secret : pyval :=
  VStr "una_clave_secreta_por_defecto_muy_segura_cambiar_en_produccion".

Definition database_url_error : pyexc :=
  Exc EnvironmentError
    "La variable de entorno DATABASE_URL no está configurada. La aplicación no puede conectar a la base de datos.".

Definition fatal_print : event :=
  EvPrint "ERROR FATAL: DATABASE_URL no configurada. La aplicación no puede iniciar.".

Definition uri_debug (env : gmap string string) : event :=
  EvLog DEBUG ("SQLALCHEMY_DATABASE_URI configurada como: "
               +:+ py_str (getenv env "DATABASE_URL")) None.

Definition mail_port_warning : event :=
  EvLog WARNING
    "MAIL_PORT en .env no es un número válido. Usando puerto por defecto 465." None.

Definition mail_credentials_warning : event :=
  EvLog WARNING
    "Configuración de correo incompleta (MAIL_USERNAME o MAIL_PASSWORD faltantes). La funcionalidad de correo no funcionará." None.

Definition notion_key_warning : event :=
  EvLog WARNING
    "NOTION_API_KEY NO encontrada en config. Cliente de Notion no inicializado. La integración con Notion no funcionará." None.

Definition notion_attempt_debug : event :=
  EvLog DEBUG
    "NOTION_API_KEY encontrada en config, intentando inicializar Notion Client..." None.

Definition notion_ready_debug : event :=
  EvLog DEBUG "Cliente de Notion inicializado." None.

Definition notion_error (e : pyexc) : event :=
  EvLog ERROR ("ERROR al inicializar Notion Client: " +:+ exc_msg e) (Some e).

(** Lines 51-58 as a function of the environment. *)
Definition application_config (env : gmap string string) (app : Flask) : Flask :=
  config_set "SQLALCHEMY_TRACK_MODIFICATIONS" (VBool false)
    (config_set "SQLALCHEMY_DATABASE_URI" (getenv env "DATABASE_URL")
       (config_set "SECRET_KEY" (getenv_or env "SECRET_KEY" default_secret) app)).

(** The port that lines 78-82 store, and whether they warn. *)
Definition mail_port (W : World) (env : gmap string string) : Z :=
  match env !! "MAIL_PORT" with
  | Some v => default 465 (int_of_str W v)
  | None => 465
  end.

Definition mail_port_events (W : World) (env : gmap string string) : list event :=
  match env !! "MAIL_PORT" with
  | Some v => match int_of_str W v with Some _ => [] | None => [mail_port_warning] end
  | None => []
  end.

(** The value of a mail flag: the variable, or its default text,
    lower-cased and compared with ["true"]. *)
Definition mail_flag (env : gmap string string) (k d : string) : bool :=
  String.eqb (lower (default d (env !! k))) "true".

Definition mail_credentials_events (env : gmap string string) : list event :=
  if negb (truthy (getenv env "MAIL_USERNAME"))
     || negb (truthy (getenv env "MAIL_PASSWORD"))
  then [mail_credentials_warning] else [].

(** Lines 76-89 as a function of the environment. *)
Definition mail_config (W : World) (env : gmap string string) (app : Flask) : Flask :=
  config_set "MAIL_DEFAULT_SENDER"
    (getenv_or env "MAIL_DEFAULT_SENDER" (getenv env "MAIL_USERNAME"))
    (config_set "MAIL_PASSWORD" (getenv env "MAIL_PASSWORD")
       (config_set "MAIL_USERNAME" (getenv env "MAIL_USERNAME")
          (config_set "MAIL_USE_SSL" (VBool (mail_flag env "MAIL_USE_SSL" "True"))
             (config_set "MAIL_USE_TLS" (VBool (mail_flag env "MAIL_USE_TLS" "False"))
                (config_set "MAIL_PORT" (VInt (mail_port W env))
                   (config_set "MAIL_SERVER"
                      (getenv_or env "MAIL_SERVER" (VStr "smtp.gmail.com")) app)))))).

(** Lines 99-105 as a function of the environment. *)
Definition notion_config (env : gmap string string) (app : Flask) : Flask :=
  config_set "DATABASE_ID_MATERIALES_DB2" (getenv env "DATABASE_ID_2")
    (config_set "DATABASE_ID_MATERIALES_DB1" (getenv env "DATABASE_ID")
       (config_set "DATABASE_ID_PLANES" (getenv env "DATABASE_ID_PLANES")
          (config_set "DATABASE_ID_PARTIDAS" (getenv env "DATABASE_ID_PARTIDAS")
             (config_set "DATABASE_ID_PROYECTOS" (getenv env "DATABASE_ID_PROYECTOS")
                (config_set "NOTION_API_KEY" (getenv env "NOTION_API_KEY") app))))).

(** The client handle lines 108-120 leave on the application, and what
    they log. *)
Definition notion_handle (W : World) (key : pyval) : option NotionClient :=
  if truthy key then
    match Client_raises W key 60000 with
    | Some _ => None
    | None => Some (Client key 60000)
    end
  else None.

Definition notion_events (W : World) (key : pyval) : list event :=
  if truthy key then
    match Client_raises W key 60000 with
    | Some e => [notion_attempt_debug; notion_error e]
    | None => [notion_attempt_debug; notion_ready_debug]
    end
  else [notion_key_warning].

(** Lines 125-130 when no extension raises. *)
Definition extensions_bound (W : World) (app : Flask) : Flask :=
  bind_extension W ext_mail
    (bind_extension W ext_login_manager
       (bind_extension W ext_migrate (bind_extension W ext_db app))).

(** Lines 125-130 when an extension raises: the calls made up to and
    including the one that raised, and its exception. Nothing stands for
    four calls that all return. *)
Definition extensions_refusal (W : World) (cfg : gmap string pyval)
    : option (list event * pyexc) :=
  match init_app_raises W ext_db cfg with
  | Some x => Some ([EvInitApp ext_db], x)
  | None =>
      let cfg := cfg ∪ init_app_defaults W ext_db in
      match init_app_raises W ext_migrate cfg with
      | Some x => Some ([EvInitApp ext_db; EvInitApp ext_migrate], x)
      | None =>
          let cfg := cfg ∪ init_app_defaults W ext_migrate in
          match init_app_raises W ext_login_manager cfg with
          | Some x =>
              Some ([EvInitApp ext_db; EvInitApp ext_migrate;
                     EvInitApp ext_login_manager], x)
          | None =>
              let cfg := cfg ∪ init_app_defaults W ext_login_manager in
              match init_app_raises W ext_mail cfg with
              | Some x =>
                  Some ([EvInitApp ext_db; EvInitApp ext_migrate;
                         EvInitApp ext_login_manager; EvInitApp ext_mail], x)
              | None => None
              end
          end
      end
  end.

Definition login_policy : LoginManager :=
  {| login_view := Some "auth.login";
     login_message := "Por favor, inicia sesión para acceder a esta página.";
     login_message_category := "info";
     user_callback := Some cb_load_user |}.

(** The application object a successful run returns, and the state it
    leaves, as functions of the world and of the environment read. *)
Definition configured_secret (app : Flask) : pyval :=
  config_get_or app "SECRET_KEY" (VStr "default_fallback_secret_again").

(** The application as it stands at line 125, before the extensions. *)
Definition configured_app (W : World) (env : gmap string string) : Flask :=
  let app := Flask_new W "autointelli" true
               (path_join (package_parent W) "templates")
               (path_join (package_parent W) "static") in
  let app := application_config env app in
  let app := mail_config W env app in
  let app := notion_config env app in
  set_notion_client (notion_handle W (getenv env "NOTION_API_KEY")) app.

Definition created_app (W : World) (env : gmap string string) : Flask :=
  let app := configured_app W env in
  let app := extensions_bound W app in
  let app := set_url_serializer (URLSafeTimedSerializer (configured_secret app)) app in
  register_blueprints app.

Definition startup_events (W : World) (env : gmap string string) : list event :=
  [uri_debug env]
  ++ mail_port_events W env
  ++ mail_credentials_events env
  ++ notion_events W (getenv env "NOTION_API_KEY")
  ++ [EvInitApp ext_db; EvInitApp ext_migrate;
      EvInitApp ext_login_manager; EvInitApp ext_mail].

Definition created_state (W : World) (st : state) : state :=
  let env := os_environ W st in
  {| environ := env;
     s := URLSafeTimedSerializer (configured_secret (created_app W env));
     login_manager := login_policy;
     trace := trace st ++ startup_events W env |}.

Definition failed_state (W : World) (st : state) : state :=
  let env := os_environ W st in
  {| environ := env; s := s st; login_manager := login_manager st;
     trace := trace st ++ [uri_debug env; fatal_print] |}.

(** The URL prefixes of the factory, in registration order. *)
Definition registered_blueprints : list (blueprint * option string) :=
  [(main_bp, None); (auth_bp, Some "/auth");
   (solicitudes_bp, Some "/solicitudes"); (ajustes_bp, Some "/ajustes");
   (proyectos_bp, Some "/proyectos"); (accesorios_bp, Some "/accesorios");
   (almacen_bp, Some "/almacen"); (compras_bp, Some "/compras")].

(** The line the loader logs when it gives up on an identifier. *)
Definition invalid_identifier_error (user_id : pyval) (e : pyexc) : event :=
  EvLog ERROR ("Intento de cargar usuario con ID inválido '"
               +:+ py_str user_id +:+ "': " +:+ exc_msg e) None.

(** The loader's [try] body fails with [e]: in [int(user_id)], or in
    [db.session.get]. *)
Inductive loader_failure (W : World) (user_id : pyval) (e : pyexc) : Prop :=
| conversion_failure :
    int W user_id = inl e -> loader_failure W user_id e
| lookup_failure pk :
    int W user_id = inr pk -> session_get W pk = inl e -> loader_failure W user_id e.

Definition caught_by_loader (e : pyexc) : bool :=
  is_ValueError e || is_TypeError e.

(** ** Further notions for the properties of the whole run *)

Definition is_error (ev : event) : bool :=
  match ev with EvLog ERROR _ _ => true | _ => false end.

Definition is_print (ev : event) : bool :=
  match ev with EvPrint _ => true | _ => false end.

(** The four [init_app] calls of lines 125-130, in source order. *)
Definition init_events : list event :=
  [EvInitApp ext_db; EvInitApp ext_migrate;
   EvInitApp ext_login_manager; EvInitApp ext_mail].

(** What a returning run logs before it reaches line 125. *)
Definition configuration_events (W : World) (env : gmap string string) : list event :=
  [uri_debug env]
  ++ mail_port_events W env
  ++ mail_credentials_events env
  ++ notion_events W (getenv env "NOTION_API_KEY").

(** The state a run leaves when an extension raised after the calls
    [calls]: the globals are untouched. *)
Definition refused_state (W : World) (st : state) (calls : list event) : state :=
  let env := os_environ W st in
  {| environ := env; s := s st; login_manager := login_manager st;
     trace := trace st ++ configuration_events W env ++ calls |}.

(** No extension raises on the application the factory hands it. *)
Definition extensions_accept (W : World) (env : gmap string string) : Prop :=
  extensions_refusal W (config (configured_app W env)) = None.

(** The configuration keys that the extensions' defaults fill in, in the
    order of the calls: a key set earlier is never replaced. *)
Definition extension_defaults (W : World) : gmap string pyval :=
  init_app_defaults W ext_db ∪ init_app_defaults W ext_migrate
  ∪ init_app_defaults W ext_login_manager ∪ init_app_defaults W ext_mail.

(** The keys of [app.config] that the factory assigns (lines 51-105). *)
Definition factory_keys : list string :=
  ["SECRET_KEY"; "SQLALCHEMY_DATABASE_URI"; "SQLALCHEMY_TRACK_MODIFICATIONS";
   "MAIL_SERVER"; "MAIL_PORT"; "MAIL_USE_TLS"; "MAIL_USE_SSL";
   "MAIL_USERNAME"; "MAIL_PASSWORD"; "MAIL_DEFAULT_SENDER";
   "NOTION_API_KEY"; "DATABASE_ID_PROYECTOS"; "DATABASE_ID_PARTIDAS";
   "DATABASE_ID_PLANES"; "DATABASE_ID_MATERIALES_DB1";
   "DATABASE_ID_MATERIALES_DB2"].

(** A world with a [.env] file, and a Flask default configuration that
    already has a secret key and a session cookie name. *)
Definition dotenv_world : World :=
  {| dotenv_file :=
       {[ "DATABASE_URL" := "sqlite:///dev.db"; "MAIL_PORT" := "2525" ]};
     package_parent := "/srv/sys_autointelli";
     flask_default_config :=
       {[ "SECRET_KEY" := VNone; "SESSION_COOKIE_NAME" := VStr "session" ]};
     int_literal := decimal_of_ascii;
     int_error_text := sample_int_error_text;
     Client_raises := fun _ _ => None;
     init_app_raises := sample_init_app_raises;
     init_app_defaults := sample_init_app_defaults;
     session_get := fun pk =>
       if Z.eqb pk 7 then inr (Some (mkUser 7)) else inr None |}.

(** A world whose extensions accept every configuration and add no
    key. *)
Definition permissive_world : World :=
  {| dotenv_file := ∅;
     package_parent := "/srv/sys_autointelli";
     flask_default_config := ∅;
     int_literal := decimal_of_ascii;
     int_error_text := sample_int_error_text;
     Client_raises := fun _ _ => None;
     init_app_raises := fun _ _ => None;
     init_app_defaults := fun _ => ∅;
     session_get := fun _ => inr None |}.

Definition env_mail_port_only : gmap string string :=
  {[ "MAIL_PORT" := "587" ]}.

Definition env_mail : gmap string string :=
  <["MAIL_PORT" := " 70_000 "]>
    (<["MAIL_USERNAME" := "almacen@example.com"]>
       (<["MAIL_PASSWORD" := ""]>
          (<["MAIL_DEFAULT_SENDER" := ""]> env_database))).

Definition env_empty_key : gmap string string :=
  <["NOTION_API_KEY" := ""]> env_database.

Definition env_good_key : gmap string string :=
  <["NOTION_API_KEY" := "secret_token"]> env_database.

(** ** The builtins on examples *)

Example decimal_plain : decimal_of_ascii "465" = Some 465.
Proof. reflexivity. Qed.
Example decimal_spaces : decimal_of_ascii "  -5_87 " = Some (-587).
Proof. reflexivity. Qed.
Example decimal_leading_zeros : decimal_of_ascii "0042" = Some 42.
Proof. reflexivity. Qed.
Example decimal_word : decimal_of_ascii "not-a-number" = None.
Proof. reflexivity. Qed.
Example decimal_empty : decimal_of_ascii "" = None.
Proof. reflexivity. Qed.
Example decimal_underscores :
  decimal_of_ascii "4__2" = None /\ decimal_of_ascii "42_" = None
  /\ decimal_of_ascii "_42" = None.
Proof. repeat split; reflexivity. Qed.
Example decimal_unit_separator :
  decimal_of_ascii (String (ascii_of_nat 31) "25") = None.
Proof. reflexivity. Qed.

(** Text without a digit is rejected in every world. *)
Lemma int_of_str_digitless W t : digitless_ascii t = true -> int_of_str W t = None.
Proof. unfold int_of_str. by intros ->. Qed.

Lemma int_raises_caught W v e :
  int W v = inl e -> is_ValueError e || is_TypeError e = true.
Proof.
  destruct v as [| b | n | t | n x b]; simpl; try discriminate.
  - by intros [= <-].
  - destruct (int_of_str W t); [discriminate|]. by intros [= <-].
  - by intros [= <-].
Qed.
Example lower_true : lower "TrUE" = "true" /\ lower "Yes" = "yes".
Proof. split; reflexivity. Qed.

(** ** Running the monad *)

Lemma logged_nil st : logged [] st = st.
Proof. destruct st; unfold logged; simpl. by rewrite app_nil_r. Qed.

Lemma logged_logged evs1 evs2 st :
  logged evs2 (logged evs1 st) = logged (evs1 ++ evs2) st.
Proof. unfold logged; simpl. by rewrite app_assoc. Qed.

Lemma run_bind {A B} (m : M A) (k : A -> M B) st :
  (m ≫= k) st =
  match m st with
  | (st', inr a) => k a st'
  | (st', inl e) => (st', inl e)
  end.
Proof. reflexivity. Qed.

Lemma run_bind_ok {A B} (m : M A) (k : A -> M B) st st' a :
  m st = (st', inr a) -> (m ≫= k) st = k a st'.
Proof. intros H. by rewrite run_bind, H. Qed.

Lemma run_bind_raise {A B} (m : M A) (k : A -> M B) st st' e :
  m st = (st', inl e) -> (m ≫= k) st = (st', inl e).
Proof. intros H. by rewrite run_bind, H. Qed.

Lemma run_os_environ_get k st :
  os_environ_get k st = (st, inr (getenv (environ st) k)).
Proof. reflexivity. Qed.

Lemma run_os_environ_get_or k d st :
  os_environ_get_or k d st = (st, inr (getenv_or (environ st) k d)).
Proof. reflexivity. Qed.

Lemma run_emit ev st : emit ev st = (logged [ev] st, inr tt).
Proof. reflexivity. Qed.

Lemma environ_logged evs st : environ (logged evs st) = environ st.
Proof. reflexivity. Qed.

(** Reading and writing [app.config]. *)
Lemma config_get_set_eq k v app : config_get (config_set k v app) k = v.
Proof. unfold config_get, config_set; simpl. by rewrite lookup_insert_eq. Qed.

Lemma config_get_set_ne k k' v app :
  k ≠ k' -> config_get (config_set k v app) k' = config_get app k'.
Proof. intros H. unfold config_get, config_set; simpl. by rewrite lookup_insert_ne. Qed.

Lemma getenv_truthy env k :
  truthy (getenv env k) = true <-> exists v, env !! k = Some v /\ v ≠ "".
Proof.
  unfold getenv. destruct (env !! k) as [v|]; simpl.
  - destruct (String.eqb_spec v ""); simpl; split.
    + discriminate.
    + intros (w & [= ->] & Hw). contradiction.
    + intros _. by exists v.
    + done.
  - split; [discriminate | intros (v & Hv & _); discriminate].
Qed.

Lemma getenv_falsy env k :
  truthy (getenv env k) = false <-> env !! k = None \/ env !! k = Some "".
Proof.
  unfold getenv. destruct (env !! k) as [v|]; simpl.
  - destruct (String.eqb_spec v ""); simpl; split; subst; auto.
    + discriminate.
    + intros [H | [= H]]; [discriminate | contradiction].
  - split; auto.
Qed.

(** ** Tactics *)

(** Unfolds the monad and the library calls, leaving [getenv], the
    configuration accessors and the maps folded. *)
Ltac run :=
  cbv beta iota zeta delta
    [mbind M_bind mret M_ret raise lift try_except gets emit
     set_environ set_s set_login_manager
     logger_debug logger_warning logger_error print
     os_environ_get os_environ_get_or init_app Client_new config_item logged];
  cbn [environ s login_manager trace].

(** Reads [app.config] back through the assignments made so far. *)
Ltac config_lookup :=
  repeat first
    [ rewrite config_get_set_eq
    | rewrite config_get_set_ne by done ].

Section Factory.

Context (W : World).

Lemma configure_application_fatal app st :
  truthy (getenv (environ st) "DATABASE_URL") = false ->
  configure_application app st =
  (logged [uri_debug (environ st); fatal_print] st, inl database_url_error).
Proof.
  intros H. unfold configure_application. run.
  rewrite H. cbn [negb]. run.
  config_lookup. by rewrite <- app_assoc.
Qed.

Lemma configure_application_ok app st :
  truthy (getenv (environ st) "DATABASE_URL") = true ->
  configure_application app st =
  (logged [uri_debug (environ st)] st, inr (application_config (environ st) app)).
Proof.
  intros H. unfold configure_application. run.
  rewrite H. cbn [negb]. run.
  by config_lookup.
Qed.

Lemma configure_mail_port_run app st :
  configure_mail_port W app st =
  (logged (mail_port_events W (environ st)) st,
   inr (config_set "MAIL_PORT" (VInt (mail_port W (environ st))) app)).
Proof.
  unfold configure_mail_port, mail_port_events, mail_port, getenv_or. run.
  unfold getenv_or.
  destruct (environ st !! "MAIL_PORT") as [v|]; simpl.
  - destruct (int_of_str W v); simpl; [|done].
    by rewrite app_nil_r; destruct st.
  - by rewrite app_nil_r; destruct st.
Qed.

Lemma str_lower_getenv_or env k d :
  str_lower (getenv_or env k (VStr d)) =
  mret (VStr (lower (default d (env !! k)))).
Proof. unfold getenv_or. by destruct (env !! k). Qed.

Lemma configure_mail_run app st :
  configure_mail W app st =
  (logged (mail_port_events W (environ st) ++ mail_credentials_events (environ st)) st,
   inr (mail_config W (environ st) app)).
Proof.
  unfold configure_mail. run.
  rewrite configure_mail_port_run. run.
  repeat (rewrite str_lower_getenv_or; run).
  config_lookup.
  unfold mail_credentials_events, mail_config, mail_flag.
  destruct (negb (truthy (getenv (environ st) "MAIL_USERNAME"))
            || negb (truthy (getenv (environ st) "MAIL_PASSWORD"))); run.
  - by rewrite <- app_assoc.
  - by rewrite app_nil_r.
Qed.

Lemma init_notion_client_run app st :
  let key := config_get app "NOTION_API_KEY" in
  init_notion_client W app st =
  (logged (notion_events W key) st, inr (set_notion_client (notion_handle W key) app)).
Proof.
  unfold init_notion_client, notion_events, notion_handle; simpl.
  change (config_get (set_notion_client None app) "NOTION_API_KEY")
    with (config_get app "NOTION_API_KEY").
  destruct (truthy (config_get app "NOTION_API_KEY")) eqn:Hkey; [|by run].
  run. change (config (set_notion_client None app)) with (config app).
  unfold config_get in *.
  destruct (config app !! "NOTION_API_KEY") as [key|]; [|done]. simpl.
  destruct (Client_raises W key 60000) as [e|]; simpl.
  - by rewrite <- app_assoc.
  - by rewrite <- app_assoc.
Qed.

Lemma configure_notion_run app st :
  let key := getenv (environ st) "NOTION_API_KEY" in
  configure_notion W app st =
  (logged (notion_events W key) st,
   inr (set_notion_client (notion_handle W key) (notion_config (environ st) app))).
Proof.
  unfold configure_notion; simpl. run.
  rewrite init_notion_client_run; simpl. by config_lookup.
Qed.

Lemma init_extensions_run app st :
  init_extensions W app st =
  match extensions_refusal W (config app) with
  | Some (calls, x) => (logged calls st, inl x)
  | None => (logged init_events st, inr (extensions_bound W app))
  end.
Proof.
  unfold init_extensions, extensions_refusal, extensions_bound, init_events. run.
  destruct (init_app_raises W ext_db (config app)); [done|].
  cbn [environ s login_manager trace config bind_extension].
  destruct (init_app_raises W ext_migrate _);
    cbn [environ s login_manager trace config bind_extension];
    [by rewrite <- ?app_assoc|].
  destruct (init_app_raises W ext_login_manager _);
    cbn [environ s login_manager trace config bind_extension];
    [by rewrite <- ?app_assoc|].
  destruct (init_app_raises W ext_mail _);
    cbn [environ s login_manager trace config bind_extension];
    by rewrite <- ?app_assoc.
Qed.

(** The factory on an environment without a usable [DATABASE_URL]. *)
Lemma create_app_fatal st :
  truthy (getenv (os_environ W st) "DATABASE_URL") = false ->
  create_app W st = (failed_state W st, inl database_url_error).
Proof.
  intros H. unfold create_app, load_dotenv. run.
  by rewrite configure_application_fatal.
Qed.

(** The factory on an environment with a usable [DATABASE_URL]: it gets
    to the extensions, and returns unless one of them raises. *)
Lemma create_app_run st :
  truthy (getenv (os_environ W st) "DATABASE_URL") = true ->
  create_app W st =
  match extensions_refusal W (config (configured_app W (os_environ W st))) with
  | Some (calls, x) => (refused_state W st calls, inl x)
  | None => (created_state W st, inr (created_app W (os_environ W st)))
  end.
Proof.
  intros H. unfold create_app, load_dotenv. run.
  rewrite configure_application_ok by done. run.
  rewrite configure_mail_run. run.
  rewrite configure_notion_run. run.
  rewrite init_extensions_run.
  fold (os_environ W st).
  change (set_notion_client _ (notion_config _ (mail_config W _ (application_config _ _))))
    with (configured_app W (os_environ W st)).
  destruct (extensions_refusal W (config (configured_app W (os_environ W st))))
    as [[calls x]|] eqn:Hext.
  - run. unfold refused_state, configuration_events.
    f_equal. f_equal. rewrite <- !app_assoc. reflexivity.
  - unfold refresh_serializer, configure_login. run.
    unfold created_state, created_app, startup_events, login_policy, init_events.
    cbv zeta.
    cbn [login_view login_message login_message_category user_callback
         set_url_serializer url_serializer set_notion_client].
    f_equal. f_equal. rewrite <- !app_assoc. reflexivity.
Qed.

Lemma create_app_returns st :
  truthy (getenv (os_environ W st) "DATABASE_URL") = true ->
  extensions_accept W (os_environ W st) ->
  create_app W st = (created_state W st, inr (created_app W (os_environ W st))).
Proof. intros H Hext. rewrite create_app_run by done. by rewrite Hext. Qed.

End Factory.

(** ** Properties of the factory *)


Lemma lookup_getenv_Some env k v : env !! k = Some v -> getenv env k = VStr v.
Proof. unfold getenv. by intros ->. Qed.

Lemma truthy_nonempty v : v ≠ "" -> truthy (VStr v) = true.
Proof. intros H; simpl. by destruct (String.eqb_spec v ""). Qed.

(** *** The extensions *)

(** An exception out of lines 125-130 is the exception of one of the
    four [init_app] calls, made on a configuration that still has every
    key the factory had set; the calls made are an initial part of the
    four. *)
Lemma extensions_refusal_source W cfg calls x :
  extensions_refusal W cfg = Some (calls, x) ->
  exists ext cfg' later,
    init_app_raises W ext cfg' = Some x
    /\ (forall k v, cfg !! k = Some v -> cfg' !! k = Some v)
    /\ init_events = calls ++ later
    /\ calls ≠ [].
Proof.
  unfold extensions_refusal, init_events.
  destruct (init_app_raises W ext_db cfg) as [x0|] eqn:H0.
  { intros [= <- <-]. exists ext_db, cfg, [EvInitApp ext_migrate;
      EvInitApp ext_login_manager; EvInitApp ext_mail]. by repeat split. }
  destruct (init_app_raises W ext_migrate _) as [x1|] eqn:H1.
  { intros [= <- <-]. eexists ext_migrate, _,
      [EvInitApp ext_login_manager; EvInitApp ext_mail].
    split; [exact H1|]. split; [|by split].
    intros k v Hk. by apply lookup_union_Some_l. }
  destruct (init_app_raises W ext_login_manager _) as [x2|] eqn:H2.
  { intros [= <- <-]. eexists ext_login_manager, _, [EvInitApp ext_mail].
    split; [exact H2|]. split; [|by split].
    intros k v Hk. by do 2 apply lookup_union_Some_l. }
  destruct (init_app_raises W ext_mail _) as [x3|] eqn:H3; [|discriminate].
  intros [= <- <-]. eexists ext_mail, _, [].
  split; [exact H3|]. split; [|by split].
  intros k v Hk. by do 3 apply lookup_union_Some_l.
Qed.

Lemma extensions_never_raise W cfg :
  (forall ext c, init_app_raises W ext c = None) ->
  extensions_refusal W cfg = None.
Proof. intros H. unfold extensions_refusal. by rewrite !H. Qed.

(** The extensions only add keys: what the factory has set stays. *)
Lemma bound_config_configured W app k v :
  config app !! k = Some v ->
  config (extensions_bound W app) !! k = Some v.
Proof.
  intros H. unfold extensions_bound. cbn [config bind_extension].
  by do 4 apply lookup_union_Some_l.
Qed.

(** Lines 134-180 leave [config], the client handle and the extensions
    as they are. *)
Lemma config_register_blueprints app : config (register_blueprints app) = config app.
Proof. reflexivity. Qed.

Lemma config_set_url_serializer x app : config (set_url_serializer x app) = config app.
Proof. reflexivity. Qed.

Lemma created_config W env :
  config (created_app W env) = config (extensions_bound W (configured_app W env)).
Proof.
  unfold created_app.
  by rewrite config_register_blueprints, config_set_url_serializer.
Qed.

Lemma created_config_configured W env k v :
  config (configured_app W env) !! k = Some v ->
  config (created_app W env) !! k = Some v.
Proof.
  intros H. rewrite created_config.
  by apply (bound_config_configured W (configured_app W env)).
Qed.

(** *** Inverting a run *)

(** A run that returns went through the database check and through the
    four extensions. *)
Lemma create_app_inv W st st' app :
  create_app W st = (st', inr app) ->
  truthy (getenv (os_environ W st) "DATABASE_URL") = true
  /\ st' = created_state W st
  /\ app = created_app W (os_environ W st).
Proof.
  intros H.
  destruct (truthy (getenv (os_environ W st) "DATABASE_URL")) eqn:Hdb.
  - rewrite create_app_run in H by done.
    destruct (extensions_refusal W _) as [[calls x]|]; by simplify_eq.
  - rewrite create_app_fatal in H by done. discriminate.
Qed.

Lemma create_app_inv_accept W st st' app :
  create_app W st = (st', inr app) -> extensions_accept W (os_environ W st).
Proof.
  intros H. pose proof (create_app_inv _ _ _ _ H) as (Hdb & _).
  rewrite create_app_run in H by done. unfold extensions_accept.
  destruct (extensions_refusal W _) as [[calls x]|]; [discriminate | done].
Qed.

(** A run that raises was stopped by the database check, or by an
    extension. *)
Lemma create_app_raises_inv W st st' e :
  create_app W st = (st', inl e) ->
  (truthy (getenv (os_environ W st) "DATABASE_URL") = false
   /\ st' = failed_state W st
   /\ e = database_url_error)
  \/ (truthy (getenv (os_environ W st) "DATABASE_URL") = true
      /\ exists calls,
           extensions_refusal W (config (configured_app W (os_environ W st)))
           = Some (calls, e)
           /\ st' = refused_state W st calls).
Proof.
  intros H.
  destruct (truthy (getenv (os_environ W st) "DATABASE_URL")) eqn:Hdb.
  - right. split; [done|]. rewrite create_app_run in H by done.
    destruct (extensions_refusal W _) as [[calls x]|]; [|discriminate].
    simplify_eq. by exists calls.
  - left. rewrite create_app_fatal in H by done. by simplify_eq.
Qed.

(** The configuration of the returned application, key by key. *)
Ltac configured_config :=
  unfold configured_app, notion_config, mail_config, application_config;
  cbn [config set_notion_client config_set Flask_new];
  repeat first [ rewrite lookup_insert_eq | rewrite lookup_insert_ne by done ].

Ltac created_config :=
  match goal with
  | |- config (created_app ?W ?env) !! ?k = Some ?v =>
      apply (created_config_configured W env k v)
  end;
  configured_config.

Lemma created_SECRET_KEY W env :
  config (created_app W env) !! "SECRET_KEY"
  = Some (getenv_or env "SECRET_KEY" default_secret).
Proof. by created_config. Qed.

Lemma created_MAIL_SERVER W env :
  config (created_app W env) !! "MAIL_SERVER"
  = Some (getenv_or env "MAIL_SERVER" (VStr "smtp.gmail.com")).
Proof. by created_config. Qed.

Lemma created_MAIL_PORT W env :
  config (created_app W env) !! "MAIL_PORT" = Some (VInt (mail_port W env)).
Proof. by created_config. Qed.

Lemma created_MAIL_USE_TLS W env :
  config (created_app W env) !! "MAIL_USE_TLS"
  = Some (VBool (mail_flag env "MAIL_USE_TLS" "False")).
Proof. by created_config. Qed.

Lemma created_MAIL_USE_SSL W env :
  config (created_app W env) !! "MAIL_USE_SSL"
  = Some (VBool (mail_flag env "MAIL_USE_SSL" "True")).
Proof. by created_config. Qed.

Lemma created_MAIL_USERNAME W env :
  config (created_app W env) !! "MAIL_USERNAME" = Some (getenv env "MAIL_USERNAME").
Proof. by created_config. Qed.

Lemma created_MAIL_DEFAULT_SENDER W env :
  config (created_app W env) !! "MAIL_DEFAULT_SENDER"
  = Some (getenv_or env "MAIL_DEFAULT_SENDER" (getenv env "MAIL_USERNAME")).
Proof. by created_config. Qed.

Lemma created_configured_secret W env :
  configured_secret (extensions_bound W (configured_app W env))
  = getenv_or env "SECRET_KEY" default_secret.
Proof.
  unfold configured_secret, config_get_or.
  assert (config (extensions_bound W (configured_app W env)) !! "SECRET_KEY"
          = Some (getenv_or env "SECRET_KEY" default_secret)) as ->.
  { apply (bound_config_configured W (configured_app W env)).
    by configured_config. }
  reflexivity.
Qed.

Lemma url_serializer_register_blueprints app :
  url_serializer (register_blueprints app) = url_serializer app.
Proof. reflexivity. Qed.

Lemma created_url_serializer W env :
  url_serializer (created_app W env)
  = Some (URLSafeTimedSerializer (getenv_or env "SECRET_KEY" default_secret)).
Proof.
  unfold created_app. rewrite url_serializer_register_blueprints.
  unfold set_url_serializer at 1. cbn [url_serializer].
  by rewrite created_configured_secret.
Qed.

Lemma notion_client_after_extensions W x app :
  notion_client (register_blueprints (set_url_serializer x (extensions_bound W app)))
  = notion_client app.
Proof. reflexivity. Qed.

Lemma created_notion_client W env :
  notion_client (created_app W env) = notion_handle W (getenv env "NOTION_API_KEY").
Proof.
  unfold created_app. rewrite notion_client_after_extensions. reflexivity.
Qed.

Lemma blueprints_register_blueprint bp p app :
  blueprints (register_blueprint bp p app) = blueprints app ++ [(bp, p)].
Proof. reflexivity. Qed.

Lemma extensions_bind_extension W e app :
  extensions (bind_extension W e app) = extensions app ++ [e].
Proof. reflexivity. Qed.

Lemma extensions_register_blueprints x app :
  extensions (register_blueprints (set_url_serializer x app)) = extensions app.
Proof. reflexivity. Qed.

Lemma blueprints_after_extensions W x app :
  blueprints (register_blueprints (set_url_serializer x (extensions_bound W app)))
  = blueprints app
    ++ [(main_bp, None); (auth_bp, Some "/auth");
        (solicitudes_bp, Some "/solicitudes"); (ajustes_bp, Some "/ajustes");
        (proyectos_bp, Some "/proyectos"); (accesorios_bp, Some "/accesorios");
        (almacen_bp, Some "/almacen"); (compras_bp, Some "/compras")].
Proof.
  unfold register_blueprints. cbv zeta.
  rewrite !blueprints_register_blueprint, <- !app_assoc.
  reflexivity.
Qed.

Lemma created_blueprints W env :
  blueprints (created_app W env)
  = [(main_bp, None); (auth_bp, Some "/auth");
     (solicitudes_bp, Some "/solicitudes"); (ajustes_bp, Some "/ajustes");
     (proyectos_bp, Some "/proyectos"); (accesorios_bp, Some "/accesorios");
     (almacen_bp, Some "/almacen"); (compras_bp, Some "/compras")].
Proof.
  unfold created_app. rewrite blueprints_after_extensions. reflexivity.
Qed.

Lemma extensions_after_extensions W x app :
  extensions (register_blueprints (set_url_serializer x (extensions_bound W app)))
  = extensions app ++ [ext_db; ext_migrate; ext_login_manager; ext_mail].
Proof.
  rewrite extensions_register_blueprints. unfold extensions_bound.
  rewrite !extensions_bind_extension, <- !app_assoc.
  reflexivity.
Qed.

Lemma created_extensions W env :
  extensions (created_app W env) = [ext_db; ext_migrate; ext_login_manager; ext_mail].
Proof.
  unfold created_app. rewrite extensions_after_extensions. reflexivity.
Qed.

Lemma created_trace W st :
  trace (created_state W st) = trace st ++ startup_events W (os_environ W st).
Proof. reflexivity. Qed.

Lemma created_s W st :
  s (created_state W st)
  = URLSafeTimedSerializer (getenv_or (os_environ W st) "SECRET_KEY" default_secret).
Proof.
  unfold created_state; cbn [s]. cbv zeta. f_equal.
  unfold configured_secret, config_get_or. rewrite created_config.
  exact (created_configured_secret W (os_environ W st)).
Qed.

(** *** C1: no [DATABASE_URL], no application *)



(** *** C9: an empty [DATABASE_URL] is as fatal as a missing one *)



(** *** C3: the serializer carries the configured secret key *)

(** C3. Whenever [create_app()] returns an application, the serializer on
    [app.url_serializer] (and the module global [s]) was constructed from
    the value stored under [SECRET_KEY] in [app.config], which is the
    environment's [SECRET_KEY] or the default literal; whatever serializer
    the module held at import time is gone, and unless the environment
    itself sets [SECRET_KEY] to the placeholder text, the new one differs
    from the one built from ["default_secret_key"]. *)
Theorem url_serializer_uses_configured_secret (W : World) (st st' : state)
    (app : Flask) :
  create_app W st = (st', inr app) ->
  exists key,
    config app !! "SECRET_KEY" = Some key
    /\ key = getenv_or (os_environ W st) "SECRET_KEY" default_secret
    /\ url_serializer app = Some (URLSafeTimedSerializer key)
    /\ s st' = URLSafeTimedSerializer key
    /\ (os_environ W st !! "SECRET_KEY" ≠ Some "default_secret_key" ->
        url_serializer app
        ≠ Some (URLSafeTimedSerializer (VStr "default_secret_key"))).
Proof.
  intros (_ & -> & ->)%create_app_inv.
  exists (getenv_or (os_environ W st) "SECRET_KEY" default_secret).
  rewrite created_SECRET_KEY, created_url_serializer, created_s.
  repeat split.
  intros Hne. unfold getenv_or.
  destruct (os_environ W st !! "SECRET_KEY") as [v|]; simpl.
  - intros [= ->]. by apply Hne.
  - discriminate.
Qed.

Lemma url_serializer_uses_configured_secret_witness :
  let st := module_loaded env_database in
  let app := created_app sample_world env_database in
  create_app sample_world st = (created_state sample_world st, inr app)
  /\ url_serializer app
     = Some (URLSafeTimedSerializer
               (VStr "una_clave_secreta_por_defecto_muy_segura_cambiar_en_produccion"))
  /\ s (created_state sample_world st) ≠ s st.
Proof.
  intros st app.
  assert (create_app sample_world st = (created_state sample_world st, inr app))
    as Hrun by (vm_compute; reflexivity).
  split; [exact Hrun|].
  destruct (url_serializer_uses_configured_secret sample_world st _ app Hrun)
    as (key & _ & -> & Hattached & Hglobal & _).
  split; [exact Hattached|].
  rewrite Hglobal. discriminate.
Defined.

(** *** C6: documented fallbacks *)

(** C6. On the application [create_app()] returns: without [SECRET_KEY] the
    secret key is the fixed default literal; without [MAIL_SERVER] the mail
    server is [smtp.gmail.com]; without [MAIL_USE_TLS] the TLS flag is off;
    without [MAIL_USE_SSL] the SSL flag is on; without
    [MAIL_DEFAULT_SENDER] the default sender is the configured mail
    username. *)
Theorem config_fallbacks (W : World) (st st' : state) (app : Flask) :
  create_app W st = (st', inr app) ->
  let env := os_environ W st in
  (env !! "SECRET_KEY" = None ->
   config app !! "SECRET_KEY"
   = Some (VStr "una_clave_secreta_por_defecto_muy_segura_cambiar_en_produccion"))
  /\ (env !! "MAIL_SERVER" = None ->
      config app !! "MAIL_SERVER" = Some (VStr "smtp.gmail.com"))
  /\ (env !! "MAIL_USE_TLS" = None ->
      config app !! "MAIL_USE_TLS" = Some (VBool false))
  /\ (env !! "MAIL_USE_SSL" = None ->
      config app !! "MAIL_USE_SSL" = Some (VBool true))
  /\ (env !! "MAIL_DEFAULT_SENDER" = None ->
      config app !! "MAIL_DEFAULT_SENDER" = config app !! "MAIL_USERNAME").
Proof.
  intros (_ & -> & ->)%create_app_inv env; subst env.
  rewrite created_SECRET_KEY, created_MAIL_SERVER, created_MAIL_USE_TLS,
    created_MAIL_USE_SSL, created_MAIL_DEFAULT_SENDER, created_MAIL_USERNAME.
  unfold getenv_or, mail_flag.
  repeat split; by intros ->.
Qed.

Lemma config_fallbacks_witness :
  let st := module_loaded env_database in
  let app := created_app sample_world env_database in
  create_app sample_world st = (created_state sample_world st, inr app)
  /\ config app !! "SECRET_KEY"
     = Some (VStr "una_clave_secreta_por_defecto_muy_segura_cambiar_en_produccion")
  /\ config app !! "MAIL_SERVER" = Some (VStr "smtp.gmail.com")
  /\ config app !! "MAIL_USE_TLS" = Some (VBool false)
  /\ config app !! "MAIL_USE_SSL" = Some (VBool true)
  /\ config app !! "MAIL_DEFAULT_SENDER" = config app !! "MAIL_USERNAME".
Proof.
  intros st app.
  assert (create_app sample_world st = (created_state sample_world st, inr app))
    as Hrun by (vm_compute; reflexivity).
  split; [exact Hrun|].
  destruct (config_fallbacks sample_world st _ app Hrun)
    as (Hkey & Hserver & Htls & Hssl & Hsender).
  split; [exact (Hkey eq_refl)|]. split; [exact (Hserver eq_refl)|].
  split; [exact (Htls eq_refl)|]. split; [exact (Hssl eq_refl)|].
  exact (Hsender eq_refl).
Defined.

(** *** C8: the Notion identifiers and the variables they are read from *)

(** C8. On the application [create_app()] returns, each Notion setting is
    [os.environ.get] of one literal variable name, with no default (an
    unset variable gives [None]); [DATABASE_ID_MATERIALES_DB1] is read from
    [DATABASE_ID] and [DATABASE_ID_MATERIALES_DB2] from [DATABASE_ID_2]. *)
Theorem notion_identifiers_from_environment (W : World) (st st' : state)
    (app : Flask) :
  create_app W st = (st', inr app) ->
  let env := os_environ W st in
  let read k := Some (from_option VStr VNone (env !! k)) in
  config app !! "NOTION_API_KEY" = read "NOTION_API_KEY"
  /\ config app !! "DATABASE_ID_PROYECTOS" = read "DATABASE_ID_PROYECTOS"
  /\ config app !! "DATABASE_ID_PARTIDAS" = read "DATABASE_ID_PARTIDAS"
  /\ config app !! "DATABASE_ID_PLANES" = read "DATABASE_ID_PLANES"
  /\ config app !! "DATABASE_ID_MATERIALES_DB1" = read "DATABASE_ID"
  /\ config app !! "DATABASE_ID_MATERIALES_DB2" = read "DATABASE_ID_2".
Proof.
  intros (_ & -> & ->)%create_app_inv env read; subst env read.
  repeat split; by created_config.
Qed.

Lemma notion_identifiers_from_environment_witness :
  let st := module_loaded env_bad_key in
  let app := created_app sample_world env_bad_key in
  create_app sample_world st = (created_state sample_world st, inr app)
  /\ config app !! "NOTION_API_KEY" = Some (VStr "bad")
  /\ config app !! "DATABASE_ID_MATERIALES_DB1" = Some VNone
  /\ config app !! "DATABASE_ID_MATERIALES_DB2" = Some VNone.
Proof.
  intros st app.
  assert (create_app sample_world st = (created_state sample_world st, inr app))
    as Hrun by (vm_compute; reflexivity).
  split; [exact Hrun|].
  destruct (notion_identifiers_from_environment sample_world st _ app Hrun)
    as (Hkey & _ & _ & _ & Hdb1 & Hdb2).
  split; [exact Hkey|]. split; [exact Hdb1 | exact Hdb2].
Defined.

(** *** C10: the mail flags *)

Lemma startup_warnings W env ev :
  ev ∈ startup_events W env -> is_warning ev = true ->
  ev ∈ [mail_port_warning; mail_credentials_warning; notion_key_warning].
Proof.
  unfold startup_events, mail_port_events, mail_credentials_events, notion_events.
  rewrite !elem_of_app. intros Hin Hwarn.
  destruct Hin as [Hin | [Hin | [Hin | [Hin | Hin]]]].
  - apply list_elem_of_singleton in Hin as ->. discriminate.
  - destruct (env !! "MAIL_PORT") as [v|]; [destruct (int_of_str W v)|];
      try by apply elem_of_nil in Hin.
    apply list_elem_of_singleton in Hin as ->. set_solver.
  - destruct (_ || _); [|by apply elem_of_nil in Hin].
    apply list_elem_of_singleton in Hin as ->. set_solver.
  - destruct (truthy _); [destruct (Client_raises _ _ _)|].
    + apply elem_of_cons in Hin as [-> | ->%list_elem_of_singleton]; discriminate.
    + apply elem_of_cons in Hin as [-> | ->%list_elem_of_singleton]; discriminate.
    + apply list_elem_of_singleton in Hin as ->. set_solver.
  - repeat (apply elem_of_cons in Hin as [-> | Hin]; [discriminate|]).
    by apply elem_of_nil in Hin.
Qed.

(** C10. On the application [create_app()] returns, [MAIL_USE_TLS] and
    [MAIL_USE_SSL] hold the comparison of the lower-cased text (the
    variable's value, or the default ["False"] / ["True"] when it is unset)
    with ["true"]: for a set value the flag is true exactly when the value
    lower-cased is ["true"], so ["1"], ["yes"] and ["on"] give false; and
    no warning about the flags is among the events of the run. *)
Theorem mail_flags_compare_with_true (W : World) (st st' : state) (app : Flask) :
  create_app W st = (st', inr app) ->
  let env := os_environ W st in
  config app !! "MAIL_USE_TLS"
  = Some (VBool (String.eqb (lower (default "False" (env !! "MAIL_USE_TLS"))) "true"))
  /\ config app !! "MAIL_USE_SSL"
     = Some (VBool (String.eqb (lower (default "True" (env !! "MAIL_USE_SSL"))) "true"))
  /\ (forall k v, k = "MAIL_USE_TLS" \/ k = "MAIL_USE_SSL" ->
      env !! k = Some v ->
      (config app !! k = Some (VBool true) <-> lower v = "true")
      /\ (lower v ≠ "true" -> config app !! k = Some (VBool false))
      /\ (v = "1" \/ v = "yes" \/ v = "on" -> config app !! k = Some (VBool false)))
  /\ (exists evs,
        trace st' = trace st ++ evs
        /\ forall ev, ev ∈ evs -> is_warning ev = true ->
           ev ∈ [mail_port_warning; mail_credentials_warning; notion_key_warning]).
Proof.
  intros (_ & -> & ->)%create_app_inv env; subst env.
  rewrite created_MAIL_USE_TLS, created_MAIL_USE_SSL. unfold mail_flag.
  split; [done|]. split; [done|]. split.
  - intros k v Hk Hv.
    assert (config (created_app W (os_environ W st)) !! k
            = Some (VBool (String.eqb (lower v) "true"))) as ->.
    { destruct Hk as [-> | ->].
      - by rewrite created_MAIL_USE_TLS; unfold mail_flag; rewrite Hv.
      - by rewrite created_MAIL_USE_SSL; unfold mail_flag; rewrite Hv. }
    destruct (String.eqb_spec (lower v) "true") as [Heq | Hne].
    + repeat split; try done. intros [-> | [-> | ->]]; discriminate.
    + by repeat split.
  - exists (startup_events W (os_environ W st)).
    split; [apply created_trace | apply startup_warnings].
Qed.

Lemma mail_flags_compare_with_true_witness :
  let st := module_loaded env_flags in
  let app := created_app sample_world env_flags in
  create_app sample_world st = (created_state sample_world st, inr app)
  /\ config app !! "MAIL_USE_TLS" = Some (VBool true)
  /\ config app !! "MAIL_USE_SSL" = Some (VBool false).
Proof.
  intros st app.
  assert (create_app sample_world st = (created_state sample_world st, inr app))
    as Hrun by (vm_compute; reflexivity).
  split; [exact Hrun|].
  destruct (mail_flags_compare_with_true sample_world st _ app Hrun)
    as (Htls & Hssl & _).
  split; [exact Htls | exact Hssl].
Defined.

(** *** What can stop the factory *)


(** Once the database check passes, the factory returns in every world
    whose extensions do not raise. *)
Lemma create_app_returns_when_accepted W st :
  truthy (getenv (os_environ W st) "DATABASE_URL") = true ->
  (forall ext cfg, init_app_raises W ext cfg = None) ->
  create_app W st = (created_state W st, inr (created_app W (os_environ W st))).
Proof.
  intros Hdb Hnever. apply create_app_returns; [done|].
  by apply extensions_never_raise.
Qed.


(** *** C5: a malformed [MAIL_PORT] *)



(** *** C4: the Notion client never stops the start-up *)







(** Without a key the factory does not reach the constructor: the debug
    line that precedes the call is not among the events of the run. *)
Lemma no_client_attempt_without_key W env :
  truthy (getenv env "NOTION_API_KEY") = false ->
  notion_attempt_debug ∉ startup_events W env.
Proof.
  intros Hkey. unfold startup_events, notion_events. rewrite Hkey.
  unfold mail_port_events, mail_credentials_events.
  rewrite !elem_of_app. intros [Hin | [Hin | [Hin | [Hin | Hin]]]].
  - apply list_elem_of_singleton in Hin. vm_compute in Hin. discriminate.
  - destruct (env !! "MAIL_PORT") as [v|]; [destruct (int_of_str W v)|];
      try by apply elem_of_nil in Hin.
    apply list_elem_of_singleton in Hin. discriminate.
  - destruct (_ || _); [|by apply elem_of_nil in Hin].
    apply list_elem_of_singleton in Hin. discriminate.
  - apply list_elem_of_singleton in Hin. discriminate.
  - repeat (apply elem_of_cons in Hin as [Hin | Hin]; [discriminate|]).
    by apply elem_of_nil in Hin.
Qed.



(** *** C7: the blueprints and their prefixes *)

Lemma prefix_of_common_string (a b t : string) :
  String.prefix a t = true -> String.prefix b t = true ->
  String.prefix a b = true \/ String.prefix b a = true.
Proof.
  revert a b. induction t as [|c t IH]; intros [|x a] [|y b]; simpl; auto;
    try discriminate.
  destruct (ascii_dec x c) as [->|]; [|discriminate].
  destruct (ascii_dec y c) as [->|]; [|discriminate].
  destruct (ascii_dec c c) as [_|]; [|done]. apply IH.
Qed.

Lemma registered_prefixes_disjoint bp1 p1 bp2 p2 path :
  (bp1, Some p1) ∈ registered_blueprints ->
  (bp2, Some p2) ∈ registered_blueprints ->
  String.prefix p1 path = true -> String.prefix p2 path = true ->
  bp1 = bp2.
Proof.
  intros H1 H2 Hp1 Hp2.
  destruct (prefix_of_common_string _ _ _ Hp1 Hp2) as [Hpre | Hpre];
    clear Hp1 Hp2;
    unfold registered_blueprints in *;
    repeat (apply elem_of_cons in H1 as [H1 | H1]; [simplify_eq|]);
    try (by apply elem_of_nil in H1);
    repeat (apply elem_of_cons in H2 as [H2 | H2]; [simplify_eq|]);
    try (by apply elem_of_nil in H2);
    try reflexivity; try (vm_compute in Hpre; discriminate).
Qed.

(** C7. On a successful run the registered blueprints are exactly the
    eight groupings, in this order and with these prefixes: main without a
    prefix, then auth, solicitudes, ajustes, proyectos, accesorios, almacen
    and compras under [/auth], [/solicitudes], [/ajustes], [/proyectos],
    [/accesorios], [/almacen] and [/compras]. The prefixes are pairwise
    distinct, and a request path begins with the prefix of at most one
    blueprint. *)
Theorem blueprints_and_prefixes (W : World) (st st' : state) (app : Flask) :
  create_app W st = (st', inr app) ->
  blueprints app
  = [(main_bp, None); (auth_bp, Some "/auth");
     (solicitudes_bp, Some "/solicitudes"); (ajustes_bp, Some "/ajustes");
     (proyectos_bp, Some "/proyectos"); (accesorios_bp, Some "/accesorios");
     (almacen_bp, Some "/almacen"); (compras_bp, Some "/compras")]
  /\ NoDup (omap snd (blueprints app))
  /\ NoDup (fst <$> blueprints app)
  /\ forall path bp1 p1 bp2 p2,
       (bp1, Some p1) ∈ blueprints app -> (bp2, Some p2) ∈ blueprints app ->
       String.prefix p1 path = true -> String.prefix p2 path = true ->
       bp1 = bp2.
Proof.
  intros (_ & -> & ->)%create_app_inv. rewrite created_blueprints.
  split; [reflexivity|]. split; [|split].
  - apply (bool_decide_unpack _). by vm_compute.
  - apply (bool_decide_unpack _). by vm_compute.
  - intros path bp1 p1 bp2 p2. apply registered_prefixes_disjoint.
Qed.

Lemma blueprints_and_prefixes_witness :
  let st := module_loaded env_database in
  let app := created_app sample_world env_database in
  create_app sample_world st = (created_state sample_world st, inr app)
  /\ length (blueprints app) = 8%nat
  /\ forall path bp1 p1 bp2 p2,
       (bp1, Some p1) ∈ blueprints app -> (bp2, Some p2) ∈ blueprints app ->
       String.prefix p1 path = true -> String.prefix p2 path = true ->
       bp1 = bp2.
Proof.
  intros st app.
  assert (create_app sample_world st = (created_state sample_world st, inr app))
    as Hrun by (vm_compute; reflexivity).
  split; [exact Hrun|].
  destruct (blueprints_and_prefixes sample_world st _ app Hrun)
    as (Hlist & _ & _ & Hdisjoint).
  split; [|exact Hdisjoint].
  exact (f_equal length Hlist).
Defined.

(** *** C2: the user loader *)

Lemma load_user_on_failure W user_id st e :
  loader_failure W user_id e ->
  load_user W user_id st
  = if caught_by_loader e
    then (logged [invalid_identifier_error user_id e] st, inr None)
    else (st, inl e).
Proof.
  intros [Hint | pk Hint Hget].
  - pose proof (int_raises_caught _ _ _ Hint) as Hc.
    unfold caught_by_loader. rewrite Hc.
    unfold load_user. run. rewrite Hint. cbn. by rewrite Hc.
  - unfold load_user. run. rewrite Hint. cbn. rewrite Hget.
    unfold caught_by_loader. by destruct (is_ValueError e || is_TypeError e).
Qed.

(** C2, as stated, fails: when the lookup fails because the database is
    unreachable, the loader lets the exception through. *)
Lemma load_user_lookup_failure_propagates :
  session_get offline_world 7 = inl database_unreachable
  /\ loader_failure offline_world (VStr "7") database_unreachable
  /\ load_user offline_world (VStr "7") (module_loaded env_database)
     = (module_loaded env_database, inl database_unreachable).
Proof.
  split; [reflexivity|]. split; [|reflexivity].
  by apply (lookup_failure _ _ _ 7).
Qed.

(** C2, amended. When [int(user_id)] fails, or the lookup fails with a
    [ValueError] or a [TypeError], the loader logs one error line and
    returns [None]; a failure of [int] is always of one of these two
    classes; a lookup failure of any other class leaves the loader as it
    was raised. Called with ["not-an-integer"], the loader returns [None]. *)
Theorem load_user_invalid_identifier (W : World) (user_id : pyval) (st : state)
    (e : pyexc) :
  loader_failure W user_id e ->
  (caught_by_loader e = true ->
   load_user W user_id st
   = (logged [invalid_identifier_error user_id e] st, inr None))
  /\ (int W user_id = inl e -> caught_by_loader e = true)
  /\ (caught_by_loader e = false -> load_user W user_id st = (st, inl e))
  /\ exists e0,
       load_user W (VStr "not-an-integer") st
       = (logged [invalid_identifier_error (VStr "not-an-integer") e0] st, inr None).
Proof.
  intros Hfail. pose proof (load_user_on_failure W user_id st e Hfail) as Hrun.
  repeat split.
  - intros Hc. by rewrite Hc in Hrun.
  - apply int_raises_caught.
  - intros Hc. by rewrite Hc in Hrun.
  - exists (Exc ValueError (int_error_text W "not-an-integer")).
    by rewrite (load_user_on_failure W (VStr "not-an-integer") st _
                  (conversion_failure W (VStr "not-an-integer") _ eq_refl)).
Qed.

Lemma load_user_invalid_identifier_witness :
  let st := module_loaded env_database in
  let e := Exc ValueError
             "invalid literal for int() with base 10: 'not-an-integer'" in
  loader_failure sample_world (VStr "not-an-integer") e
  /\ load_user sample_world (VStr "not-an-integer") st
     = (logged [invalid_identifier_error (VStr "not-an-integer") e] st, inr None).
Proof.
  intros st e.
  assert (loader_failure sample_world (VStr "not-an-integer") e) as Hfail
    by (apply conversion_failure; reflexivity).
  split; [exact Hfail|].
  exact (proj1 (load_user_invalid_identifier sample_world
                  (VStr "not-an-integer") st e Hfail) eq_refl).
Defined.

(** ** Further properties of the factory and of the loader *)

(** *** The events of a run, one source at a time *)

Lemma startup_events_split W env :
  startup_events W env = configuration_events W env ++ init_events.
Proof.
  unfold startup_events, configuration_events, init_events.
  by rewrite <- !app_assoc.
Qed.

Lemma elem_of_mail_port_events W env ev :
  ev ∈ mail_port_events W env
  <-> ev = mail_port_warning
      /\ exists v, env !! "MAIL_PORT" = Some v /\ int_of_str W v = None.
Proof.
  unfold mail_port_events.
  destruct (env !! "MAIL_PORT") as [v|]; [destruct (int_of_str W v) eqn:Hint|].
  - rewrite elem_of_nil. split; [done|]. intros (_ & w & [= <-] & Hw). congruence.
  - rewrite list_elem_of_singleton. split; [|by intros (-> & _)].
    intros ->. split; [done|]. by exists v.
  - rewrite elem_of_nil. split; [done|]. by intros (_ & w & [=] & _).
Qed.

Lemma elem_of_mail_credentials_events env ev :
  ev ∈ mail_credentials_events env
  <-> ev = mail_credentials_warning
      /\ (truthy (getenv env "MAIL_USERNAME") = false
          \/ truthy (getenv env "MAIL_PASSWORD") = false).
Proof.
  unfold mail_credentials_events.
  destruct (truthy (getenv env "MAIL_USERNAME")),
    (truthy (getenv env "MAIL_PASSWORD")); simpl;
    rewrite ?elem_of_nil, ?list_elem_of_singleton; intuition discriminate.
Qed.

Lemma elem_of_notion_events W key ev :
  ev ∈ notion_events W key
  <-> (truthy key = false /\ ev = notion_key_warning)
      \/ (truthy key = true /\ ev = notion_attempt_debug)
      \/ (truthy key = true /\ Client_raises W key 60000 = None
          /\ ev = notion_ready_debug)
      \/ (truthy key = true
          /\ exists e, Client_raises W key 60000 = Some e /\ ev = notion_error e).
Proof.
  unfold notion_events.
  destruct (truthy key); [destruct (Client_raises W key 60000) as [e|]|];
    rewrite ?elem_of_cons, ?elem_of_nil.
  - split.
    + intros [-> | [-> | []]]; [by right; left | do 3 right; eauto].
    + intros [(? & _) | [(_ & ->) | [(_ & ? & _) | (_ & e' & [= <-] & ->)]]];
        try discriminate; auto.
  - split.
    + intros [-> | [-> | []]]; [by right; left | by right; right; left].
    + intros [(? & _) | [(_ & ->) | [(_ & _ & ->) | (_ & e' & ? & _)]]];
        try discriminate; auto.
  - split.
    + intros [-> | []]. by left.
    + intros [(_ & ->) | [(? & _) | [(? & _) | (? & _)]]];
        try discriminate; auto.
Qed.

Lemma elem_of_configuration_events W env ev :
  ev ∈ configuration_events W env
  <-> ev = uri_debug env
      \/ ev ∈ mail_port_events W env
      \/ ev ∈ mail_credentials_events env
      \/ ev ∈ notion_events W (getenv env "NOTION_API_KEY").
Proof.
  unfold configuration_events.
  by rewrite !elem_of_app, list_elem_of_singleton.
Qed.

Lemma configuration_events_no_init W env :
  Forall (fun ev => is_init ev = false) (configuration_events W env).
Proof.
  apply Forall_forall. intros ev Hev.
  apply elem_of_configuration_events in Hev as [-> | [Hev | [Hev | Hev]]].
  - done.
  - by apply elem_of_mail_port_events in Hev as (-> & _).
  - by apply elem_of_mail_credentials_events in Hev as (-> & _).
  - apply elem_of_notion_events in Hev
      as [(_ & ->) | [(_ & ->) | [(_ & _ & ->) | (_ & e & _ & ->)]]]; done.
Qed.

(** *** Extensions, login policy and what a failed run leaves behind *)

(** X1. On a returning run the four extensions are bound to the
    application in the order db, migrate, login manager, mail (so [db]
    before [migrate], which needs it), each exactly once, and every
    [init_app] call comes after all configuration has been read and
    logged. *)
Theorem extensions_initialised_in_order (W : World) (st st' : state) (app : Flask) :
  create_app W st = (st', inr app) ->
  extensions app = [ext_db; ext_migrate; ext_login_manager; ext_mail]
  /\ exists before,
       trace st' = trace st ++ before
                   ++ [EvInitApp ext_db; EvInitApp ext_migrate;
                       EvInitApp ext_login_manager; EvInitApp ext_mail]
       /\ Forall (fun ev => is_init ev = false) before.
Proof.
  intros (_ & -> & ->)%create_app_inv. split; [apply created_extensions|].
  exists (configuration_events W (os_environ W st)).
  rewrite created_trace, startup_events_split.
  split; [reflexivity | apply configuration_events_no_init].
Qed.

Lemma extensions_initialised_in_order_witness :
  let st := module_loaded env_bad_key in
  let app := created_app sample_world env_bad_key in
  create_app sample_world st = (created_state sample_world st, inr app)
  /\ extensions app = [ext_db; ext_migrate; ext_login_manager; ext_mail].
Proof.
  intros st app.
  assert (create_app sample_world st = (created_state sample_world st, inr app))
    as Hrun by (vm_compute; reflexivity).
  split; [exact Hrun|].
  exact (proj1 (extensions_initialised_in_order sample_world st _ app Hrun)).
Defined.

(** X2. Starting from a login manager without a user loader (as right
    after import), the loader is registered exactly when [create_app()]
    returns; and on return the login manager carries the login view
    ['auth.login'], the category ['info'] and the Spanish login message,
    whatever it held before. *)
Theorem loader_registered_iff_started (W : World) (st st' : state)
    (r : pyexc + Flask) :
  user_callback (login_manager st) = None ->
  create_app W st = (st', r) ->
  (user_callback (login_manager st') = Some cb_load_user
   <-> exists app, r = inr app)
  /\ (forall app, r = inr app ->
      login_manager st'
      = {| login_view := Some "auth.login";
           login_message := "Por favor, inicia sesión para acceder a esta página.";
           login_message_category := "info";
           user_callback := Some cb_load_user |}).
Proof.
  intros Hnone Hrun. destruct r as [e | app].
  - assert (login_manager st' = login_manager st) as ->.
    { by apply create_app_raises_inv in Hrun
        as [(_ & -> & _) | (_ & calls & _ & ->)]. }
    rewrite Hnone.
    split; [|by intros ? [=]].
    split; [discriminate | by intros (? & [=])].
  - apply create_app_inv in Hrun as (_ & -> & _).
    split; [|reflexivity]. split; [by exists app | reflexivity].
Qed.

Lemma loader_registered_iff_started_witness :
  let st := module_loaded env_no_database in
  user_callback (login_manager st) = None
  /\ user_callback (login_manager (create_app sample_world st).1) = None.
Proof.
  intros st. split; [reflexivity|].
  destruct (create_app sample_world st) as [st' r] eqn:Hrun.
  destruct (loader_registered_iff_started sample_world st st' r eq_refl Hrun)
    as (Hiff & _).
  destruct r as [e | app]; [|vm_compute in Hrun; discriminate].
  cbn [fst]. destruct (user_callback (login_manager st')) as [[]|]; [|reflexivity].
  destruct (proj1 Hiff eq_refl) as (app & [=]).
Defined.



(** *** Mail settings *)

(** X4. On a returning run the warning about incomplete mail credentials
    is logged exactly when [MAIL_USERNAME] or [MAIL_PASSWORD] is unset or
    empty; the run returns either way. *)
Theorem mail_credentials_warning_iff (W : World) (st st' : state) (app : Flask) :
  create_app W st = (st', inr app) ->
  let env := os_environ W st in
  exists evs,
    trace st' = trace st ++ evs
    /\ (mail_credentials_warning ∈ evs
        <-> env !! "MAIL_USERNAME" = None \/ env !! "MAIL_USERNAME" = Some ""
            \/ env !! "MAIL_PASSWORD" = None \/ env !! "MAIL_PASSWORD" = Some "").
Proof.
  intros (_ & -> & _)%create_app_inv env; subst env.
  exists (startup_events W (os_environ W st)). split; [apply created_trace|].
  rewrite startup_events_split, elem_of_app, elem_of_configuration_events.
  rewrite elem_of_mail_port_events, elem_of_mail_credentials_events,
    elem_of_notion_events.
  rewrite !getenv_falsy.
  split.
  - intros [[Heq | [(Heq & _) | [(_ & Hc) | Hn]]] | Hin]; try discriminate.
    + destruct Hc as [[Hu | Hu] | [Hp | Hp]]; auto.
    + destruct Hn as [(_ & Heq) | [(_ & Heq) | [(_ & _ & Heq) | (_ & e & _ & Heq)]]];
        discriminate.
    + unfold init_events in Hin.
      repeat (apply elem_of_cons in Hin as [Hin | Hin]; [discriminate|]).
      by apply elem_of_nil in Hin.
  - intros Hc. left. right. right. left. split; [done|].
    destruct Hc as [Hu | [Hu | [Hp | Hp]]]; auto.
Qed.

Lemma mail_credentials_warning_iff_witness :
  let st := module_loaded env_mail in
  let app := created_app sample_world env_mail in
  create_app sample_world st = (created_state sample_world st, inr app)
  /\ os_environ sample_world st !! "MAIL_PASSWORD" = Some ""
  /\ exists evs,
       trace (created_state sample_world st) = trace st ++ evs
       /\ mail_credentials_warning ∈ evs.
Proof.
  intros st app.
  assert (create_app sample_world st = (created_state sample_world st, inr app))
    as Hrun by (vm_compute; reflexivity).
  split; [exact Hrun|]. split; [reflexivity|].
  destruct (mail_credentials_warning_iff sample_world st _ app Hrun)
    as (evs & Htrace & Hiff).
  exists evs. split; [exact Htrace|].
  apply Hiff. right; right; right. reflexivity.
Defined.

(** X5. On a returning run [MAIL_PORT] holds whatever integer [int]
    makes of the variable's text, with no check that it is a valid port
    number, and 465 when the variable is unset; the warning about the
    port is logged exactly when the variable is set to text that [int]
    rejects. *)
Theorem mail_port_from_environment (W : World) (st st' : state) (app : Flask) :
  create_app W st = (st', inr app) ->
  let env := os_environ W st in
  (forall v n, env !! "MAIL_PORT" = Some v -> int_of_str W v = Some n ->
     config app !! "MAIL_PORT" = Some (VInt n))
  /\ (env !! "MAIL_PORT" = None -> config app !! "MAIL_PORT" = Some (VInt 465))
  /\ exists evs,
       trace st' = trace st ++ evs
       /\ (mail_port_warning ∈ evs
           <-> exists v, env !! "MAIL_PORT" = Some v /\ int_of_str W v = None).
Proof.
  intros (_ & -> & ->)%create_app_inv env; subst env.
  rewrite created_MAIL_PORT. unfold mail_port. split; [|split].
  - intros v n -> ->. reflexivity.
  - intros ->. reflexivity.
  - exists (startup_events W (os_environ W st)). split; [apply created_trace|].
    rewrite startup_events_split, elem_of_app, elem_of_configuration_events.
    rewrite elem_of_mail_port_events, elem_of_mail_credentials_events,
      elem_of_notion_events.
    split.
    + intros [[Heq | [(_ & Hp) | [(Heq & _) | Hn]]] | Hin]; try discriminate.
      * exact Hp.
      * destruct Hn as [(_ & Heq) | [(_ & Heq) | [(_ & _ & Heq) | (_ & e & _ & Heq)]]];
          discriminate.
      * unfold init_events in Hin.
        repeat (apply elem_of_cons in Hin as [Hin | Hin]; [discriminate|]).
        by apply elem_of_nil in Hin.
    + intros Hp. left. right. left. by split.
Qed.

Lemma mail_port_from_environment_witness :
  let st := module_loaded env_mail in
  let app := created_app sample_world env_mail in
  create_app sample_world st = (created_state sample_world st, inr app)
  /\ os_environ sample_world st !! "MAIL_PORT" = Some " 70_000 "
  /\ config app !! "MAIL_PORT" = Some (VInt 70000).
Proof.
  intros st app.
  assert (create_app sample_world st = (created_state sample_world st, inr app))
    as Hrun by (vm_compute; reflexivity).
  split; [exact Hrun|]. split; [reflexivity|].
  destruct (mail_port_from_environment sample_world st _ app Hrun) as (Hparsed & _).
  exact (Hparsed " 70_000 " 70000 eq_refl eq_refl).
Defined.

(** *** The [.env] file and the database URL *)

Lemma os_environ_lookup W st k :
  os_environ W st !! k
  = match environ st !! k with
    | Some v => Some v
    | None => dotenv_file W !! k
    end.
Proof.
  unfold os_environ. destruct (environ st !! k) as [v|] eqn:Hk.
  - by apply lookup_union_Some_l.
  - by apply lookup_union_r.
Qed.

Lemma created_SQLALCHEMY_DATABASE_URI W env :
  config (created_app W env) !! "SQLALCHEMY_DATABASE_URI"
  = Some (getenv env "DATABASE_URL").
Proof. by created_config. Qed.

Lemma created_SQLALCHEMY_TRACK_MODIFICATIONS W env :
  config (created_app W env) !! "SQLALCHEMY_TRACK_MODIFICATIONS"
  = Some (VBool false).
Proof. by created_config. Qed.

Lemma run_environ W st st' r :
  create_app W st = (st', r) -> environ st' = os_environ W st.
Proof.
  destruct r as [e | app].
  - by intros [(_ & -> & _) | (_ & calls & _ & ->)]%create_app_raises_inv.
  - by intros (_ & -> & _)%create_app_inv.
Qed.

Lemma configured_SQLALCHEMY_DATABASE_URI W env :
  config (configured_app W env) !! "SQLALCHEMY_DATABASE_URI"
  = Some (getenv env "DATABASE_URL").
Proof. by configured_config. Qed.

(** Nothing is printed once the database check has passed. *)
Lemma configuration_events_no_print W env :
  Forall (fun ev => is_print ev = false) (configuration_events W env).
Proof.
  apply Forall_forall. intros ev Hev.
  apply elem_of_configuration_events in Hev as [-> | [Hev | [Hev | Hev]]].
  - done.
  - by apply elem_of_mail_port_events in Hev as (-> & _).
  - by apply elem_of_mail_credentials_events in Hev as (-> & _).
  - apply elem_of_notion_events in Hev
      as [(_ & ->) | [(_ & ->) | [(_ & _ & ->) | (_ & e & _ & ->)]]]; done.
Qed.

Lemma init_events_no_print : Forall (fun ev => is_print ev = false) init_events.
Proof. by repeat constructor. Qed.

Lemma fatal_print_after_check W env calls later :
  init_events = calls ++ later ->
  fatal_print ∉ configuration_events W env ++ calls.
Proof.
  intros Hcalls [Hin | Hin]%elem_of_app.
  - pose proof (configuration_events_no_print W env) as Hall.
    rewrite Forall_forall in Hall. by apply Hall in Hin.
  - pose proof init_events_no_print as Hall.
    rewrite Hcalls, Forall_forall in Hall.
    assert (is_print fatal_print = false) as Hp
      by (apply Hall, elem_of_app; by left).
    done.
Qed.


(** X6. A [DATABASE_URL] that is missing from the process environment
    but present (and non-empty) in the [.env] file passes the database
    check. Whatever the run does next, the variable is left set in
    [os.environ] and the fatal message is not printed; an application
    that is returned has the value of the file as its database URI; an
    exception can only be the one that an extension's [init_app] raised
    on a configuration with that URI; and the factory does return when no
    extension raises. *)
Theorem dotenv_supplies_database_url (W : World) (st : state) (url : string) :
  environ st !! "DATABASE_URL" = None ->
  dotenv_file W !! "DATABASE_URL" = Some url -> url ≠ "" ->
  (forall st' r,
     create_app W st = (st', r) ->
     environ st' !! "DATABASE_URL" = Some url
     /\ (exists evs, trace st' = trace st ++ evs /\ fatal_print ∉ evs)
     /\ (forall app, r = inr app ->
         config app !! "SQLALCHEMY_DATABASE_URI" = Some (VStr url))
     /\ (forall e, r = inl e ->
         exists ext cfg,
           init_app_raises W ext cfg = Some e
           /\ cfg !! "SQLALCHEMY_DATABASE_URI" = Some (VStr url)))
  /\ ((forall ext cfg, init_app_raises W ext cfg = None) ->
      exists st' app, create_app W st = (st', inr app)).
Proof.
  intros Hproc Hfile Hne.
  assert (os_environ W st !! "DATABASE_URL" = Some url) as Hurl
    by (by rewrite os_environ_lookup, Hproc).
  assert (truthy (getenv (os_environ W st) "DATABASE_URL") = true) as Hdb
    by (rewrite (lookup_getenv_Some _ _ _ Hurl); by apply truthy_nonempty).
  split.
  - intros st' r Hrun. rewrite (run_environ _ _ _ _ Hrun). split; [done|].
    destruct r as [e | app].
    + apply create_app_raises_inv in Hrun
        as [(Hfalse & _) | (_ & calls & Hext & ->)]; [congruence|].
      apply extensions_refusal_source in Hext
        as (ext & cfg & later & Hraise & Hkeep & Hcalls & _).
      split; [|split; [done|]].
      * eexists. split; [reflexivity|]. by eapply fatal_print_after_check.
      * intros ? [= <-]. exists ext, cfg. split; [done|]. apply Hkeep.
        by rewrite configured_SQLALCHEMY_DATABASE_URI,
          (lookup_getenv_Some _ _ _ Hurl).
    + apply create_app_inv in Hrun as (_ & -> & ->).
      split; [|split; [|done]].
      * exists (startup_events W (os_environ W st)).
        split; [apply created_trace|].
        rewrite startup_events_split.
        by apply (fatal_print_after_check _ _ _ []), eq_sym, app_nil_r.
      * intros ? [= <-].
        by rewrite created_SQLALCHEMY_DATABASE_URI,
          (lookup_getenv_Some _ _ _ Hurl).
  - intros Hnever. eexists _, _. by apply create_app_returns_when_accepted.
Qed.

Lemma dotenv_supplies_database_url_witness :
  let st := module_loaded env_mail_port_only in
  environ st !! "DATABASE_URL" = None
  /\ dotenv_file dotenv_world !! "DATABASE_URL" = Some "sqlite:///dev.db"
  /\ exists st' app,
       create_app dotenv_world st = (st', inr app)
       /\ config app !! "SQLALCHEMY_DATABASE_URI" = Some (VStr "sqlite:///dev.db")
       /\ environ st' !! "DATABASE_URL" = Some "sqlite:///dev.db".
Proof.
  intros st. do 2 (split; [reflexivity|]).
  assert ("sqlite:///dev.db" ≠ "") as Hne by discriminate.
  destruct (dotenv_supplies_database_url dotenv_world st "sqlite:///dev.db"
              eq_refl eq_refl Hne) as (Hany & _).
  assert (create_app dotenv_world st
          = (created_state dotenv_world st,
             inr (created_app dotenv_world (os_environ dotenv_world st))))
    as Hrun by (vm_compute; reflexivity).
  destruct (Hany _ _ Hrun) as (Henv & _ & Huri & _).
  exists (created_state dotenv_world st),
    (created_app dotenv_world (os_environ dotenv_world st)).
  split; [exact Hrun|]. split; [exact (Huri _ eq_refl) | exact Henv].
Defined.

(** X7. Whether the run returns or raises, afterwards every variable of
    the process environment still has its own value, and a variable it
    lacked has the value of the [.env] file, if any: [load_dotenv()] never
    overrides. In particular a [MAIL_PORT] set in both places is read from
    the process environment. *)
Theorem process_environment_wins (W : World) (st st' : state) (r : pyexc + Flask) :
  create_app W st = (st', r) ->
  (forall k v, environ st !! k = Some v -> environ st' !! k = Some v)
  /\ (forall k, environ st !! k = None -> environ st' !! k = dotenv_file W !! k)
  /\ (forall app v n, r = inr app ->
        environ st !! "MAIL_PORT" = Some v -> int_of_str W v = Some n ->
        config app !! "MAIL_PORT" = Some (VInt n)).
Proof.
  intros Hrun. rewrite (run_environ _ _ _ _ Hrun). split; [|split].
  - intros k v Hk. by rewrite os_environ_lookup, Hk.
  - intros k Hk. by rewrite os_environ_lookup, Hk.
  - intros app v n -> Hv Hn.
    apply create_app_inv in Hrun as (_ & _ & ->).
    rewrite created_MAIL_PORT. unfold mail_port.
    by rewrite os_environ_lookup, Hv, Hn.
Qed.

Lemma process_environment_wins_witness :
  let st := module_loaded env_mail_port_only in
  dotenv_file dotenv_world !! "MAIL_PORT" = Some "2525"
  /\ environ st !! "MAIL_PORT" = Some "587"
  /\ exists st' app,
       create_app dotenv_world st = (st', inr app)
       /\ environ st' !! "MAIL_PORT" = Some "587"
       /\ config app !! "MAIL_PORT" = Some (VInt 587).
Proof.
  intros st. do 2 (split; [reflexivity|]).
  exists (created_state dotenv_world st),
    (created_app dotenv_world (os_environ dotenv_world st)).
  assert (create_app dotenv_world st
          = (created_state dotenv_world st,
             inr (created_app dotenv_world (os_environ dotenv_world st))))
    as Hrun by (vm_compute; reflexivity).
  split; [exact Hrun|].
  destruct (process_environment_wins dotenv_world st _ _ Hrun)
    as (Hkeep & _ & Hport).
  split; [exact (Hkeep "MAIL_PORT" "587" eq_refl)|].
  exact (Hport _ "587" 587 eq_refl eq_refl eq_refl).
Defined.

(** X8. An application is returned only for a non-empty [DATABASE_URL];
    that URL is stored unchanged as [SQLALCHEMY_DATABASE_URI], with
    [SQLALCHEMY_TRACK_MODIFICATIONS] off, and the first thing the run logs
    is a debug line that contains the URL in full. *)
Theorem database_url_configured_and_logged (W : World) (st st' : state)
    (app : Flask) :
  create_app W st = (st', inr app) ->
  exists url rest,
    os_environ W st !! "DATABASE_URL" = Some url /\ url ≠ ""
    /\ config app !! "SQLALCHEMY_DATABASE_URI" = Some (VStr url)
    /\ config app !! "SQLALCHEMY_TRACK_MODIFICATIONS" = Some (VBool false)
    /\ trace st'
       = trace st
         ++ EvLog DEBUG ("SQLALCHEMY_DATABASE_URI configurada como: " +:+ url) None
         :: rest.
Proof.
  intros (Hdb & -> & ->)%create_app_inv.
  apply getenv_truthy in Hdb as (url & Hurl & Hne).
  exists url. eexists. split; [exact Hurl|]. split; [exact Hne|].
  rewrite created_SQLALCHEMY_DATABASE_URI, created_SQLALCHEMY_TRACK_MODIFICATIONS,
    created_trace.
  unfold startup_events, uri_debug.
  rewrite (lookup_getenv_Some _ _ _ Hurl). by repeat split.
Qed.

Lemma database_url_configured_and_logged_witness :
  let st := module_loaded env_database in
  let app := created_app sample_world env_database in
  create_app sample_world st = (created_state sample_world st, inr app)
  /\ exists url rest,
       os_environ sample_world st !! "DATABASE_URL" = Some url /\ url ≠ ""
       /\ config app !! "SQLALCHEMY_DATABASE_URI" = Some (VStr url)
       /\ config app !! "SQLALCHEMY_TRACK_MODIFICATIONS" = Some (VBool false)
       /\ trace (created_state sample_world st)
          = trace st
            ++ EvLog DEBUG ("SQLALCHEMY_DATABASE_URI configurada como: " +:+ url)
                 None
            :: rest.
Proof.
  intros st app.
  assert (create_app sample_world st = (created_state sample_world st, inr app))
    as Hrun by (vm_compute; reflexivity).
  split; [exact Hrun|].
  exact (database_url_configured_and_logged sample_world st _ app Hrun).
Defined.

(** *** The Notion client *)

Lemma created_NOTION_API_KEY W env :
  config (created_app W env) !! "NOTION_API_KEY" = Some (getenv env "NOTION_API_KEY").
Proof. by created_config. Qed.

Lemma elem_of_startup_events W env ev :
  ev ∈ startup_events W env
  <-> ev = uri_debug env
      \/ ev ∈ mail_port_events W env
      \/ ev ∈ mail_credentials_events env
      \/ ev ∈ notion_events W (getenv env "NOTION_API_KEY")
      \/ ev ∈ init_events.
Proof.
  rewrite startup_events_split, elem_of_app, elem_of_configuration_events.
  tauto.
Qed.

(** X9. An empty [NOTION_API_KEY] is kept in the configuration as the
    empty string, but counts as no key: on a returning run the
    constructor is not tried, the handle is [None] and the warning about
    the missing key is logged. *)
Theorem empty_notion_key_disables_client (W : World) (st st' : state)
    (app : Flask) :
  create_app W st = (st', inr app) ->
  os_environ W st !! "NOTION_API_KEY" = Some "" ->
  config app !! "NOTION_API_KEY" = Some (VStr "")
  /\ notion_client app = None
  /\ exists evs,
       trace st' = trace st ++ evs
       /\ notion_key_warning ∈ evs
       /\ notion_attempt_debug ∉ evs.
Proof.
  intros (_ & -> & ->)%create_app_inv Hkey.
  rewrite created_NOTION_API_KEY, created_notion_client, created_trace.
  rewrite (lookup_getenv_Some _ _ _ Hkey). repeat split.
  exists (startup_events W (os_environ W st)). split; [done|]. split.
  - apply elem_of_startup_events. do 3 right. left.
    rewrite (lookup_getenv_Some _ _ _ Hkey).
    apply elem_of_notion_events. by left.
  - apply no_client_attempt_without_key.
    by rewrite (lookup_getenv_Some _ _ _ Hkey).
Qed.

Lemma empty_notion_key_disables_client_witness :
  let st := module_loaded env_empty_key in
  let app := created_app sample_world env_empty_key in
  create_app sample_world st = (created_state sample_world st, inr app)
  /\ os_environ sample_world st !! "NOTION_API_KEY" = Some ""
  /\ config app !! "NOTION_API_KEY" = Some (VStr "")
  /\ notion_client app = None.
Proof.
  intros st app.
  assert (create_app sample_world st = (created_state sample_world st, inr app))
    as Hrun by (vm_compute; reflexivity).
  split; [exact Hrun|]. split; [reflexivity|].
  destruct (empty_notion_key_disables_client sample_world st _ app Hrun eq_refl)
    as (Hconfig & Hhandle & _).
  split; [exact Hconfig | exact Hhandle].
Defined.

(** X10. With a non-empty [NOTION_API_KEY] whose constructor call does
    not raise, the returned application carries the client built from
    exactly that key with a timeout of 60000 ms, and the run logs the
    attempt and then the success. *)
Theorem notion_client_constructed (W : World) (st st' : state) (app : Flask)
    (k : string) :
  create_app W st = (st', inr app) ->
  os_environ W st !! "NOTION_API_KEY" = Some k -> k ≠ "" ->
  Client_raises W (VStr k) 60000 = None ->
  notion_client app = Some (Client (VStr k) 60000)
  /\ exists before after,
       trace st'
       = trace st ++ before ++ [notion_attempt_debug; notion_ready_debug] ++ after.
Proof.
  intros (_ & -> & ->)%create_app_inv Hkey Hne Hok.
  rewrite created_notion_client, created_trace.
  unfold startup_events, notion_handle, notion_events.
  rewrite (lookup_getenv_Some _ _ _ Hkey), (truthy_nonempty _ Hne), Hok.
  split; [reflexivity|].
  exists ([uri_debug (os_environ W st)]
          ++ mail_port_events W (os_environ W st)
          ++ mail_credentials_events (os_environ W st)).
  eexists. by rewrite <- !app_assoc.
Qed.

Lemma notion_client_constructed_witness :
  let st := module_loaded env_good_key in
  let app := created_app sample_world env_good_key in
  create_app sample_world st = (created_state sample_world st, inr app)
  /\ os_environ sample_world st !! "NOTION_API_KEY" = Some "secret_token"
  /\ notion_client app = Some (Client (VStr "secret_token") 60000).
Proof.
  intros st app.
  assert (create_app sample_world st = (created_state sample_world st, inr app))
    as Hrun by (vm_compute; reflexivity).
  split; [exact Hrun|]. split; [reflexivity|].
  refine (proj1 (notion_client_constructed sample_world st _ app "secret_token"
                   Hrun eq_refl _ eq_refl)).
  discriminate.
Defined.

(** X11. A returning run prints nothing, and it logs at level ERROR
    exactly when the Notion client was tried (non-empty key) and its
    constructor raised: no other part of a successful start-up reports an
    error. *)
Theorem startup_errors_only_from_notion (W : World) (st st' : state)
    (app : Flask) :
  create_app W st = (st', inr app) ->
  exists evs,
    trace st' = trace st ++ evs
    /\ Forall (fun ev => is_print ev = false) evs
    /\ ((exists ev, ev ∈ evs /\ is_error ev = true)
        <-> exists k e,
              os_environ W st !! "NOTION_API_KEY" = Some k /\ k ≠ ""
              /\ Client_raises W (VStr k) 60000 = Some e).
Proof.
  intros (_ & -> & _)%create_app_inv.
  exists (startup_events W (os_environ W st)).
  split; [apply created_trace|]. split.
  - apply Forall_forall. intros ev Hev.
    apply elem_of_startup_events in Hev as [-> | [Hev | [Hev | [Hev | Hev]]]].
    + done.
    + by apply elem_of_mail_port_events in Hev as (-> & _).
    + by apply elem_of_mail_credentials_events in Hev as (-> & _).
    + apply elem_of_notion_events in Hev
        as [(_ & ->) | [(_ & ->) | [(_ & _ & ->) | (_ & e & _ & ->)]]]; done.
    + unfold init_events in Hev.
      repeat (apply elem_of_cons in Hev as [-> | Hev]; [done|]).
      by apply elem_of_nil in Hev.
  - split.
    + intros (ev & Hev & Herr).
      apply elem_of_startup_events in Hev as [-> | [Hev | [Hev | [Hev | Hev]]]].
      * discriminate.
      * apply elem_of_mail_port_events in Hev as (-> & _). discriminate.
      * apply elem_of_mail_credentials_events in Hev as (-> & _). discriminate.
      * apply elem_of_notion_events in Hev
          as [(_ & ->) | [(_ & ->) | [(_ & _ & ->) | (Hkey & e & Hraise & _)]]];
          try discriminate.
        apply getenv_truthy in Hkey as (k & Hk & Hne).
        rewrite (lookup_getenv_Some _ _ _ Hk) in Hraise. by exists k, e.
      * unfold init_events in Hev.
        repeat (apply elem_of_cons in Hev as [-> | Hev]; [discriminate|]).
        by apply elem_of_nil in Hev.
    + intros (k & e & Hk & Hne & Hraise).
      exists (notion_error e). split; [|reflexivity].
      apply elem_of_startup_events. do 3 right. left.
      rewrite (lookup_getenv_Some _ _ _ Hk).
      apply elem_of_notion_events. do 3 right.
      split; [by apply truthy_nonempty | by exists e].
Qed.

Lemma startup_errors_only_from_notion_witness :
  let st := module_loaded env_bad_key in
  let app := created_app sample_world env_bad_key in
  create_app sample_world st = (created_state sample_world st, inr app)
  /\ exists evs,
       trace (created_state sample_world st) = trace st ++ evs
       /\ exists ev, ev ∈ evs /\ is_error ev = true.
Proof.
  intros st app.
  assert (create_app sample_world st = (created_state sample_world st, inr app))
    as Hrun by (vm_compute; reflexivity).
  split; [exact Hrun|].
  destruct (startup_errors_only_from_notion sample_world st _ app Hrun)
    as (evs & Htrace & _ & Hiff).
  exists evs. split; [exact Htrace|].
  apply Hiff.
  exists "bad", (Exc (OtherException "APIResponseError") "unauthorized").
  split; [reflexivity|]. split; [discriminate | reflexivity].
Defined.

(** *** The user loader *)

(** X12. When the identifier converts to an integer and the session's
    lookup does not raise, the loader hands back exactly what the session
    gave (the row, or [None] for an unknown key) and logs nothing. *)
Theorem load_user_returns_session_answer (W : World) (user_id : pyval)
    (st : state) (pk : Z) (row : option User) :
  int W user_id = inr pk -> session_get W pk = inr row ->
  load_user W user_id st = (st, inr row).
Proof.
  intros Hint Hget. unfold load_user. run. rewrite Hint. cbn. by rewrite Hget.
Qed.

Lemma load_user_returns_session_answer_witness :
  int sample_world (VStr "7") = inr 7
  /\ load_user sample_world (VStr "7") (module_loaded env_database)
     = (module_loaded env_database, inr (Some (mkUser 7))).
Proof.
  split; [reflexivity|].
  apply (load_user_returns_session_answer sample_world (VStr "7")
           (module_loaded env_database) 7 (Some (mkUser 7)));
    reflexivity.
Defined.

(** X13. For an identifier that [int] rejects the session is never
    asked: the loader's result is the same whatever the session would
    answer, it is [None], and the one error line quotes the identifier
    and the text of the exception that [int] raised. *)
Theorem load_user_invalid_identifier_skips_lookup (W : World)
    (f : Z -> pyexc + option User) (user_id : pyval) (st : state) (e : pyexc) :
  int W user_id = inl e ->
  load_user (with_session W f) user_id st = load_user W user_id st
  /\ load_user W user_id st
     = (logged [EvLog ERROR ("Intento de cargar usuario con ID inválido '"
                             +:+ py_str user_id +:+ "': " +:+ exc_msg e) None] st,
        inr None).
Proof.
  intros Hint.
  pose proof (int_raises_caught _ _ _ Hint) as Hcaught.
  assert (int (with_session W f) user_id = inl e) as Hint' by exact Hint.
  rewrite (load_user_on_failure W user_id st e (conversion_failure _ _ _ Hint)).
  rewrite (load_user_on_failure (with_session W f) user_id st e
             (conversion_failure _ _ _ Hint')).
  unfold caught_by_loader. by rewrite Hcaught.
Qed.

Lemma load_user_invalid_identifier_skips_lookup_witness :
  int sample_world VNone
  = inl (Exc TypeError
           "int() argument must be a string, a bytes-like object or a real number, not 'NoneType'")
  /\ load_user (with_session sample_world (fun _ => inl database_unreachable))
       VNone (module_loaded env_database)
     = load_user sample_world VNone (module_loaded env_database).
Proof.
  split; [reflexivity|].
  exact (proj1 (load_user_invalid_identifier_skips_lookup sample_world
                  (fun _ => inl database_unreachable) VNone
                  (module_loaded env_database) _ eq_refl)).
Defined.

(** X14. Whatever the identifier and the world, a call of the loader
    changes nothing but the log: [os.environ], the serializer [s] and the
    login manager are as before, and the log grows by at most one line,
    an ERROR line, which is written only when the loader answers [None]. *)
Theorem load_user_only_logs (W : World) (user_id : pyval) (st : state) :
  exists evs,
    (load_user W user_id st).1 = logged evs st
    /\ (length evs <= 1)%nat
    /\ Forall (fun ev => is_error ev = true) evs
    /\ (evs ≠ [] -> (load_user W user_id st).2 = inr None).
Proof.
  destruct (int W user_id) as [e | pk] eqn:Hint.
  - exists [invalid_identifier_error user_id e].
    rewrite (load_user_on_failure W user_id st e (conversion_failure _ _ _ Hint)).
    unfold caught_by_loader.
    rewrite (int_raises_caught _ _ _ Hint). cbn [fst snd length].
    repeat split; auto; by repeat constructor.
  - destruct (session_get W pk) as [e | row] eqn:Hget.
    + rewrite (load_user_on_failure W user_id st e (lookup_failure _ _ _ pk Hint Hget)).
      destruct (caught_by_loader e).
      * exists [invalid_identifier_error user_id e]. cbn [fst snd length].
        repeat split; auto; by repeat constructor.
      * exists []. cbn [fst snd length]. rewrite logged_nil.
        repeat split; auto; done.
    + exists [].
      unfold load_user. run. rewrite Hint. cbn. rewrite Hget. cbn.
      rewrite app_nil_r. destruct st. repeat split; auto; done.
Qed.

(** *** Calling the factory again *)

Lemma os_environ_created W st :
  os_environ W (created_state W st) = os_environ W st.
Proof.
  unfold os_environ at 1. cbn [created_state environ]. unfold os_environ.
  by rewrite <- (assoc_L (∪)), (idemp_L (∪)).
Qed.

(** X15. A second call of the factory after a returning one returns an
    equal application and leaves [os.environ], the serializer [s] and the
    login manager as the first call left them; only the log grows, by the
    same lines as the first time. *)
Theorem create_app_again (W : World) (st st1 : state) (app : Flask) :
  create_app W st = (st1, inr app) ->
  exists st2 evs,
    create_app W st1 = (st2, inr app)
    /\ environ st2 = environ st1
    /\ s st2 = s st1
    /\ login_manager st2 = login_manager st1
    /\ trace st1 = trace st ++ evs
    /\ trace st2 = trace st1 ++ evs.
Proof.
  intros Hrun. pose proof (create_app_inv_accept _ _ _ _ Hrun) as Hext.
  apply create_app_inv in Hrun as (Hdb & -> & ->).
  exists (created_state W (created_state W st)),
    (startup_events W (os_environ W st)).
  split.
  { rewrite create_app_returns by (by rewrite os_environ_created).
    by rewrite os_environ_created. }
  rewrite !created_s, !created_trace, !os_environ_created.
  split; [|by repeat split].
  change (environ (created_state W (created_state W st)))
    with (os_environ W (created_state W st)).
  by rewrite os_environ_created.
Qed.

Lemma create_app_again_witness :
  let st := module_loaded env_bad_port in
  let app := created_app sample_world env_bad_port in
  create_app sample_world st = (created_state sample_world st, inr app)
  /\ exists st2,
       create_app sample_world (created_state sample_world st) = (st2, inr app).
Proof.
  intros st app.
  assert (create_app sample_world st = (created_state sample_world st, inr app))
    as Hrun by (vm_compute; reflexivity).
  split; [exact Hrun|].
  destruct (create_app_again sample_world st _ app Hrun) as (st2 & _ & Hagain & _).
  by exists st2.
Defined.

(** *** The configuration as a whole *)

Lemma bound_config W app :
  config (extensions_bound W app)
  = config app ∪ init_app_defaults W ext_db ∪ init_app_defaults W ext_migrate
    ∪ init_app_defaults W ext_login_manager ∪ init_app_defaults W ext_mail.
Proof. reflexivity. Qed.

Lemma configured_config_other W env k :
  k ∉ factory_keys ->
  config (configured_app W env) !! k = flask_default_config W !! k.
Proof.
  unfold factory_keys. rewrite !not_elem_of_cons.
  intros (? & ? & ? & ? & ? & ? & ? & ? & ? & ? & ? & ? & ? & ? & ? & ? & _).
  unfold configured_app, notion_config, mail_config, application_config.
  cbn [config set_notion_client config_set Flask_new].
  by rewrite !lookup_insert_ne by done.
Qed.

Lemma created_config_other W env k :
  k ∉ factory_keys ->
  config (created_app W env) !! k
  = (flask_default_config W ∪ extension_defaults W) !! k.
Proof.
  intros Hk. rewrite created_config, bound_config. unfold extension_defaults.
  rewrite !lookup_union, (configured_config_other W env k Hk).
  destruct (flask_default_config W !! k), (init_app_defaults W ext_db !! k),
    (init_app_defaults W ext_migrate !! k),
    (init_app_defaults W ext_login_manager !! k),
    (init_app_defaults W ext_mail !! k); reflexivity.
Qed.

Lemma created_config_factory_keys W env :
  Forall (fun k => is_Some (config (created_app W env) !! k)) factory_keys.
Proof.
  unfold factory_keys.
  repeat (apply Forall_cons; split; [eexists; by created_config|]).
  apply Forall_nil_2.
Qed.

(** X16. The factory assigns sixteen keys of [app.config]: on the
    returned application each of them is present (possibly with the value
    [None]). Every other key is as Flask's default configuration has it
    or, where Flask has none, as the first extension with a default for
    it (in the order of the [init_app] calls) has set it. *)
Theorem config_written_keys (W : World) (st st' : state) (app : Flask) :
  create_app W st = (st', inr app) ->
  Forall (fun k => is_Some (config app !! k))
    ["SECRET_KEY"; "SQLALCHEMY_DATABASE_URI"; "SQLALCHEMY_TRACK_MODIFICATIONS";
     "MAIL_SERVER"; "MAIL_PORT"; "MAIL_USE_TLS"; "MAIL_USE_SSL";
     "MAIL_USERNAME"; "MAIL_PASSWORD"; "MAIL_DEFAULT_SENDER";
     "NOTION_API_KEY"; "DATABASE_ID_PROYECTOS"; "DATABASE_ID_PARTIDAS";
     "DATABASE_ID_PLANES"; "DATABASE_ID_MATERIALES_DB1";
     "DATABASE_ID_MATERIALES_DB2"]
  /\ forall k, k ∉ factory_keys ->
       config app !! k
       = (flask_default_config W
          ∪ (init_app_defaults W ext_db ∪ init_app_defaults W ext_migrate
             ∪ init_app_defaults W ext_login_manager
             ∪ init_app_defaults W ext_mail)) !! k.
Proof.
  intros (_ & -> & ->)%create_app_inv. split.
  - apply created_config_factory_keys.
  - intros k. apply created_config_other.
Qed.

Lemma config_written_keys_witness :
  let st := module_loaded env_mail_port_only in
  let app := created_app dotenv_world (os_environ dotenv_world st) in
  create_app dotenv_world st = (created_state dotenv_world st, inr app)
  /\ config app !! "SESSION_COOKIE_NAME" = Some (VStr "session")
  /\ config app !! "SQLALCHEMY_ECHO" = Some (VBool false)
  /\ config app !! "PERMANENT_SESSION_LIFETIME" = None.
Proof.
  intros st app.
  assert (create_app dotenv_world st = (created_state dotenv_world st, inr app))
    as Hrun by (vm_compute; reflexivity).
  split; [exact Hrun|].
  destruct (config_written_keys dotenv_world st _ app Hrun) as (_ & Hother).
  split; [|split].
  - rewrite Hother; [reflexivity|]. apply (bool_decide_unpack _). by vm_compute.
  - rewrite Hother; [reflexivity|]. apply (bool_decide_unpack _). by vm_compute.
  - rewrite Hother; [reflexivity|]. apply (bool_decide_unpack _). by vm_compute.
Defined.

Lemma created_MAIL_PASSWORD W env :
  config (created_app W env) !! "MAIL_PASSWORD" = Some (getenv env "MAIL_PASSWORD").
Proof. by created_config. Qed.

(** X17. A mail setting that is set is stored as it is, the empty string
    included: [MAIL_SERVER], [MAIL_USERNAME], [MAIL_PASSWORD] and
    [MAIL_DEFAULT_SENDER] hold the variable's text, so an empty
    [MAIL_DEFAULT_SENDER] does not fall back to the user name and an
    empty [MAIL_SERVER] does not fall back to [smtp.gmail.com]; an unset
    [MAIL_USERNAME] or [MAIL_PASSWORD] is stored as [None]. *)
Theorem mail_settings_verbatim (W : World) (st st' : state) (app : Flask) :
  create_app W st = (st', inr app) ->
  let env := os_environ W st in
  (forall k v,
     k ∈ ["MAIL_SERVER"; "MAIL_USERNAME"; "MAIL_PASSWORD"; "MAIL_DEFAULT_SENDER"] ->
     env !! k = Some v -> config app !! k = Some (VStr v))
  /\ (forall k, k ∈ ["MAIL_USERNAME"; "MAIL_PASSWORD"] ->
      env !! k = None -> config app !! k = Some VNone).
Proof.
  intros (_ & -> & ->)%create_app_inv env; subst env. split.
  - intros k v Hk Hv.
    repeat (apply elem_of_cons in Hk as [-> | Hk]);
      [ rewrite created_MAIL_SERVER | rewrite created_MAIL_USERNAME
      | rewrite created_MAIL_PASSWORD | rewrite created_MAIL_DEFAULT_SENDER
      | by apply elem_of_nil in Hk ];
      unfold getenv_or, getenv; by rewrite Hv.
  - intros k Hk Hv.
    repeat (apply elem_of_cons in Hk as [-> | Hk]);
      [ rewrite created_MAIL_USERNAME | rewrite created_MAIL_PASSWORD
      | by apply elem_of_nil in Hk ];
      unfold getenv; by rewrite Hv.
Qed.

Lemma mail_settings_verbatim_witness :
  let st := module_loaded env_mail in
  let app := created_app sample_world env_mail in
  create_app sample_world st = (created_state sample_world st, inr app)
  /\ os_environ sample_world st !! "MAIL_DEFAULT_SENDER" = Some ""
  /\ config app !! "MAIL_USERNAME" = Some (VStr "almacen@example.com")
  /\ config app !! "MAIL_DEFAULT_SENDER" = Some (VStr "").
Proof.
  intros st app.
  assert (create_app sample_world st = (created_state sample_world st, inr app))
    as Hrun by (vm_compute; reflexivity).
  split; [exact Hrun|]. split; [reflexivity|].
  destruct (mail_settings_verbatim sample_world st _ app Hrun) as (Hset & _).
  split.
  - apply Hset; [|reflexivity]. apply (bool_decide_unpack _). by vm_compute.
  - apply Hset; [|reflexivity]. apply (bool_decide_unpack _). by vm_compute.
Defined.

(** X18. With extensions whose [init_app] does not raise, the database
    URL is the only thing that decides whether the factory returns: it
    returns an application exactly when [DATABASE_URL] is set to a
    non-empty value, whatever the other variables hold and whatever the
    Notion client's constructor does; otherwise it raises. *)
Theorem create_app_returns_iff (W : World) (st : state) :
  (forall ext cfg, init_app_raises W ext cfg = None) ->
  ((exists st' app, create_app W st = (st', inr app))
   <-> exists url, os_environ W st !! "DATABASE_URL" = Some url /\ url ≠ "")
  /\ ((exists st' e, create_app W st = (st', inl e))
      <-> os_environ W st !! "DATABASE_URL" = None
          \/ os_environ W st !! "DATABASE_URL" = Some "").
Proof.
  intros Hnever. rewrite <- getenv_truthy, <- getenv_falsy. split; split.
  - intros (st' & app & H). by apply create_app_inv in H as (? & _).
  - intros H. eexists _, _. by apply create_app_returns_when_accepted.
  - intros (st' & e & H).
    apply create_app_raises_inv in H as [(? & _) | (_ & calls & Hext & _)];
      [done|].
    by rewrite (extensions_never_raise W _ Hnever) in Hext.
  - intros H. eexists _, _. by apply create_app_fatal.
Qed.

Lemma create_app_returns_iff_witness :
  let st := module_loaded env_unparsable_url in
  (forall ext cfg, init_app_raises permissive_world ext cfg = None)
  /\ exists st' app, create_app permissive_world st = (st', inr app).
Proof.
  intros st.
  assert (forall ext cfg, init_app_raises permissive_world ext cfg = None)
    as Hnever by reflexivity.
  split; [exact Hnever|].
  apply (proj1 (create_app_returns_iff permissive_world st Hnever)).
  exists "not-a-url". split; [reflexivity | discriminate].
Defined.
